(** * A shallow embedding of [main.py], the Llama Stack passthrough sample client

    The script builds one authentication header, issues a blocking chat
    completion and a streaming one against a local gateway, and prints what
    comes back.  The development below embeds

    - the Python values the script manipulates ([str], the objects produced
      by [json.loads], the [dict] of headers),
    - the library calls it relies on ([str.startswith], [str.removeprefix],
      [str.strip], [json.dumps], [json.loads], [print], [httpx.post],
      [httpx.stream], [Response.raise_for_status], [os.environ.get]),
    - the four functions of the script, [provider_data_header], [chat],
      [chat_streaming] and [main], in a writer-plus-exception monad whose
      log records every observable effect (writes to standard output,
      requests sent, lines pulled from the streaming response),

    and then states and proves the behavioural properties of the script.

    The gateway is a function from requests to responses.  Standard output
    is taken at the level of [str]: how the text is encoded on its way out
    is not part of the model. *)

From Stdlib Require Import ZArith NArith List String Ascii Bool Lia.
From stdpp Require Import base option list gmap pretty.
Import ListNotations.

Set Warnings "-register-all".

Local Open Scope N_scope.
Local Open Scope list_scope.

(** ** Python strings

    A Python [str] is a sequence of Unicode code points; a code point is a
    number, at most [0x10FFFF].  Lone surrogate code points ([0xD800] to
    [0xDFFF]) can occur in a [str], and both [json.dumps] and [json.loads]
    treat them specially, so they are kept in the model. *)

Abbreviation pystr := (list N).

(** String literals of the script, written as Rocq strings. *)
Definition py (s : string) : pystr :=
  map N_of_ascii (list_ascii_of_string s).

Definition max_code_point : N := 0x10FFFF.

Definition is_high_surrogate (c : N) : bool := (0xD800 <=? c) && (c <=? 0xDBFF).
Definition is_low_surrogate (c : N) : bool := (0xDC00 <=? c) && (c <=? 0xDFFF).

(** Every code point of [s] is valid and no high surrogate stands directly
    before a low surrogate.  This holds of every string that has an
    encoding: of all well-formed Unicode text, and of what the process
    environment delivers, where an undecodable byte becomes a lone low
    surrogate. *)
Fixpoint pair_free (s : pystr) : bool :=
  match s with
  | [] => true
  | c :: s' =>
      (c <=? max_code_point)
      && negb (is_high_surrogate c
               && match s' with d :: _ => is_low_surrogate d | [] => false end)
      && pair_free s'
  end.

(** [s.startswith(prefix)] *)
Fixpoint startswith (s prefix : pystr) : bool :=
  match prefix with
  | [] => true
  | p :: prefix' =>
      match s with
      | [] => false
      | c :: s' => (c =? p) && startswith s' prefix'
      end
  end.

(** [s.removeprefix(prefix)]: the prefix is dropped when present, otherwise
    the string comes back unchanged. *)
Definition removeprefix (s prefix : pystr) : pystr :=
  if startswith s prefix then drop (length prefix) s else s.

(** [str.isspace] on one code point: the characters [str.strip()] removes
    when called without argument. *)
Definition isspace (c : N) : bool :=
  ((0x09 <=? c) && (c <=? 0x0D)) || ((0x1C <=? c) && (c <=? 0x20))
  || (c =? 0x85) || (c =? 0xA0) || (c =? 0x1680)
  || ((0x2000 <=? c) && (c <=? 0x200A))
  || (c =? 0x2028) || (c =? 0x2029) || (c =? 0x202F) || (c =? 0x205F)
  || (c =? 0x3000).

Fixpoint lstrip (s : pystr) : pystr :=
  match s with
  | [] => []
  | c :: s' => if isspace c then lstrip s' else s
  end.

Definition rstrip (s : pystr) : pystr := rev (lstrip (rev s)).

(** [s.strip()] *)
Definition strip (s : pystr) : pystr := rstrip (lstrip s).

(** [a == b] on strings *)
Fixpoint pystr_eqb (a b : pystr) : bool :=
  match a, b with
  | [], [] => true
  | x :: a', y :: b' => (x =? y) && pystr_eqb a' b'
  | _, _ => false
  end.

(** ** Python objects

    The objects [json.loads] can return, which are also the ones
    [json.dumps] accepts here: [None], [bool], [int], [float], [str],
    [list] and [dict] with [str] keys.

    A [float] is kept as the decimal literal it was read from,
    [m * 10 ^ e] with a sign, before rounding to a double; what the script
    observes of a float is only whether it is zero. *)

Inductive pyfloat :=
| FDec (neg : bool) (m : N) (e : Z)
| FInf (neg : bool)
| FNaN.

Inductive value :=
| VNone
| VBool (b : bool)
| VInt (z : Z)
| VFloat (f : pyfloat)
| VStr (s : pystr)
| VList (l : list value)
| VDict (kvs : list (pystr * value)).

(** A [dict] keeps its keys in insertion order and holds each key once. *)
Fixpoint dict_get (kvs : list (pystr * value)) (k : pystr) : option value :=
  match kvs with
  | [] => None
  | (k', v) :: kvs' => if pystr_eqb k' k then Some v else dict_get kvs' k
  end.

(** [d[k] = v]: an existing key keeps its position and takes the new value,
    a new key goes last. *)
Fixpoint dict_set (kvs : list (pystr * value)) (k : pystr) (v : value)
  : list (pystr * value) :=
  match kvs with
  | [] => [(k, v)]
  | (k', v') :: kvs' =>
      if pystr_eqb k' k then (k', v) :: kvs' else (k', v') :: dict_set kvs' k v
  end.

(** A decimal literal rounds to the double zero exactly when its magnitude
    is at most [2 ^ -1075], half of the smallest subnormal (ties go to the
    even neighbour, which is zero). *)
Definition float_is_zero (f : pyfloat) : bool :=
  match f with
  | FDec _ m e =>
      (m =? 0) ||
      ((e <? 0)%Z && (Z.of_N m * 2 ^ 1075 <=? 10 ^ (- e))%Z)
  | FInf _ | FNaN => false
  end.

(** [bool(v)], the test behind [if v:] and [not v]. *)
Definition truthy (v : value) : bool :=
  match v with
  | VNone => false
  | VBool b => b
  | VInt z => negb (z =? 0)%Z
  | VFloat f => negb (float_is_zero f)
  | VStr s => match s with [] => false | _ :: _ => true end
  | VList l => match l with [] => false | _ :: _ => true end
  | VDict kvs => match kvs with [] => false | _ :: _ => true end
  end.

(** ** Rendering Python objects

    Two renderings are not determined by the script or by the JSON format:
    [float.__repr__] (shortest round-trip digits) and [str.__repr__] (quote
    selection, escapes driven by the Unicode database).  They are the two
    methods of the interface below; everything else is defined on top. *)

Class PyRuntime := {
  float_repr : pyfloat -> pystr;
  str_repr : pystr -> pystr
}.

(** [str(z)] for an [int] *)
Definition int_str (z : Z) : pystr := py (pretty z).

Section Rendering.
Context {rt : PyRuntime}.

(** [repr(v)] *)
Fixpoint py_repr (v : value) : pystr :=
  match v with
  | VNone => py "None"
  | VBool true => py "True"
  | VBool false => py "False"
  | VInt z => int_str z
  | VFloat f => float_repr f
  | VStr s => str_repr s
  | VList l =>
      py "[" ++
      (fix items (l : list value) : pystr :=
         match l with
         | [] => []
         | [x] => py_repr x
         | x :: l' => py_repr x ++ py ", " ++ items l'
         end) l ++ py "]"
  | VDict kvs =>
      py "{" ++
      (fix items (kvs : list (pystr * value)) : pystr :=
         match kvs with
         | [] => []
         | [(k, x)] => str_repr k ++ py ": " ++ py_repr x
         | (k, x) :: kvs' =>
             str_repr k ++ py ": " ++ py_repr x ++ py ", " ++ items kvs'
         end) kvs ++ py "}"
  end.

(** [str(v)], what [print(v)] writes: a [str] is written as it is. *)
Definition py_str (v : value) : pystr :=
  match v with
  | VStr s => s
  | _ => py_repr v
  end.

(** *** [json.dumps]

    With the default arguments: [ensure_ascii=True], separators [", "] and
    [": "], no indentation. *)

Definition hex_digit (d : N) : N :=
  if d <? 10 then 48 + d else 87 + d.   (* '0'..'9', 'a'..'f' *)

(** A backslash, [u], and [n] as four lower-case hexadecimal digits. *)
Definition escape_u (n : N) : pystr :=
  py "\u" ++ [hex_digit (n / 4096 mod 16); hex_digit (n / 256 mod 16);
              hex_digit (n / 16 mod 16); hex_digit (n mod 16)].

(** One character of [py_encode_basestring_ascii]: the short escapes, the
    printable ASCII characters as they are, a backslash, [u] and four
    hexadecimal digits for the rest, as a surrogate pair above the basic
    plane.  A Rocq string literal has no escapes of its own: each literal
    below is a backslash followed by one letter. *)
Definition escape_char (c : N) : pystr :=
  if c =? 34 then [92; 34]
  else if c =? 92 then py "\\"
  else if c =? 10 then py "\n"
  else if c =? 13 then py "\r"
  else if c =? 9 then py "\t"
  else if c =? 12 then py "\f"
  else if c =? 8 then py "\b"
  else if (32 <=? c) && (c <=? 126) then [c]
  else if c <? 0x10000 then escape_u c
  else
    let v := c - 0x10000 in
    escape_u (0xD800 + v / 1024) ++ escape_u (0xDC00 + v mod 1024).

Definition escape_string (s : pystr) : pystr :=
  [34] ++ concat (map escape_char s) ++ [34].

Definition float_json (f : pyfloat) : pystr :=
  match f with
  | FNaN => py "NaN"
  | FInf false => py "Infinity"
  | FInf true => py "-Infinity"
  | FDec _ _ _ => float_repr f
  end.

Fixpoint json_dumps (v : value) : pystr :=
  match v with
  | VNone => py "null"
  | VBool true => py "true"
  | VBool false => py "false"
  | VInt z => int_str z
  | VFloat f => float_json f
  | VStr s => escape_string s
  | VList l =>
      py "[" ++
      (fix items (l : list value) : pystr :=
         match l with
         | [] => []
         | [x] => json_dumps x
         | x :: l' => json_dumps x ++ py ", " ++ items l'
         end) l ++ py "]"
  | VDict kvs =>
      py "{" ++
      (fix items (kvs : list (pystr * value)) : pystr :=
         match kvs with
         | [] => []
         | [(k, x)] => escape_string k ++ py ": " ++ json_dumps x
         | (k, x) :: kvs' =>
             escape_string k ++ py ": " ++ json_dumps x ++ py ", " ++ items kvs'
         end) kvs ++ py "}"
  end.

End Rendering.

(** ** [json.loads]

    The decoder of CPython's [json] module with its default settings
    (strict strings; [NaN], [Infinity] and [-Infinity] accepted).  A failure
    of any kind is [None] here and a [JSONDecodeError] in Python.

    The recursion over nested arrays and objects is driven by a fuel counter
    set from the length of the input; [json_loads_fuel_enough] below shows
    that this counter never runs out on a text that can be decoded.  Two
    limits of the interpreter are left out: the recursion limit, which
    makes very deeply nested texts raise [RecursionError], and the limit on
    the number of digits of an integer literal. *)

Definition is_json_ws (c : N) : bool :=
  (c =? 32) || (c =? 9) || (c =? 10) || (c =? 13).

Fixpoint skip_ws (s : pystr) : pystr :=
  match s with
  | [] => []
  | c :: s' => if is_json_ws c then skip_ws s' else s
  end.

Definition is_digit (c : N) : bool := (48 <=? c) && (c <=? 57).

Definition hex_value (c : N) : option N :=
  if is_digit c then Some (c - 48)
  else if (97 <=? c) && (c <=? 102) then Some (c - 87)
  else if (65 <=? c) && (c <=? 70) then Some (c - 55)
  else None.

Definition hex4 (a b c d : N) : option N :=
  match hex_value a, hex_value b, hex_value c, hex_value d with
  | Some x, Some y, Some z, Some w => Some (((x * 16 + y) * 16 + z) * 16 + w)
  | _, _, _, _ => None
  end.

(** The one-letter escapes after a backslash. *)
Definition unescape (e : N) : option N :=
  if e =? 34 then Some 34            (* quote *)
  else if e =? 92 then Some 92       (* backslash *)
  else if e =? 47 then Some 47       (* slash *)
  else if e =? 98 then Some 8        (* b *)
  else if e =? 102 then Some 12      (* f *)
  else if e =? 110 then Some 10      (* n *)
  else if e =? 114 then Some 13      (* r *)
  else if e =? 116 then Some 9       (* t *)
  else None.

Definition join_surrogates (hi lo : N) : N :=
  0x10000 + (hi - 0xD800) * 1024 + (lo - 0xDC00).

(** [scanstring]: the input starts just after the opening quote; the result
    is the decoded string and what follows the closing quote.  An escaped
    high surrogate directly followed by an escaped low surrogate is read as
    the one code point the pair encodes. *)
Fixpoint scanstring (s : pystr) (acc : pystr) : option (pystr * pystr) :=
  match s with
  | [] => None
  | c :: s1 =>
      if c =? 34 then Some (rev acc, s1)
      else if c =? 92 then
        match s1 with
        | [] => None
        | e :: s2 =>
            if e =? 117 then
              match s2 with
              | a :: b :: c' :: d :: s3 =>
                  match hex4 a b c' d with
                  | None => None
                  | Some u =>
                      if is_high_surrogate u then
                        match s3 with
                        | x1 :: x2 :: a2 :: b2 :: c2 :: d2 :: s4 =>
                            if (x1 =? 92) && (x2 =? 117) then
                              match hex4 a2 b2 c2 d2 with
                              | None => None
                              | Some u2 =>
                                  if is_low_surrogate u2
                                  then scanstring s4 (join_surrogates u u2 :: acc)
                                  else scanstring s3 (u :: acc)
                              end
                            else scanstring s3 (u :: acc)
                        | _ => scanstring s3 (u :: acc)
                        end
                      else scanstring s3 (u :: acc)
                  end
              | _ => None
              end
            else
              match unescape e with
              | Some x => scanstring s2 (x :: acc)
              | None => None
              end
        end
      else if c <? 32 then None
      else scanstring s1 (c :: acc)
  end.

Fixpoint span_digits (s : pystr) : pystr * pystr :=
  match s with
  | [] => ([], [])
  | c :: s' =>
      if is_digit c then let (ds, r) := span_digits s' in (c :: ds, r)
      else ([], s)
  end.

Definition digits_value (ds : pystr) : N :=
  fold_left (fun acc c => acc * 10 + (c - 48)) ds 0.

(** The integer part of a number: a lone [0], or a non-zero digit followed
    by any digits. *)
Definition scan_int_part (s : pystr) : option (pystr * pystr) :=
  match s with
  | [] => None
  | c :: s' =>
      if c =? 48 then Some ([c], s')
      else if is_digit c then let (ds, r) := span_digits s' in Some (c :: ds, r)
      else None
  end.

(** The fraction: a point followed by at least one digit, or nothing. *)
Definition scan_frac (s : pystr) : pystr * pystr :=
  match s with
  | p :: d :: _ =>
      if (p =? 46) && is_digit d then span_digits (tail s) else ([], s)
  | _ => ([], s)
  end.

(** The exponent: [e] or [E], an optional sign and at least one digit, or
    nothing. *)
Definition scan_exp (s : pystr) : option Z * pystr :=
  match s with
  | e :: r =>
      if (e =? 101) || (e =? 69) then
        let '(eneg, r') :=
          match r with
          | sgn :: r'' =>
              if sgn =? 45 then (true, r'')
              else if sgn =? 43 then (false, r'')
              else (false, r)
          | [] => (false, r)
          end in
        let '(eds, r'') := span_digits r' in
        match eds with
        | [] => (None, s)
        | _ :: _ =>
            let x := Z.of_N (digits_value eds) in
            (Some (if eneg then (- x)%Z else x), r'')
        end
      else (None, s)
  | [] => (None, s)
  end.

(** A number is an [int] unless it has a fraction or an exponent. *)
Definition match_number (s : pystr) : option (value * pystr) :=
  let '(neg, s1) :=
    match s with
    | c :: s' => if c =? 45 then (true, s') else (false, s)
    | [] => (false, s)
    end in
  match scan_int_part s1 with
  | None => None
  | Some (ids, r1) =>
      let '(fds, r2) := scan_frac r1 in
      let '(ex, r3) := scan_exp r2 in
      match fds, ex with
      | [], None =>
          let n := Z.of_N (digits_value ids) in
          Some (VInt (if neg then (- n)%Z else n), r3)
      | _, _ =>
          let e := match ex with Some x => x | None => 0%Z end in
          Some (VFloat (FDec neg (digits_value (ids ++ fds))
                          (e - Z.of_nat (length fds))%Z), r3)
      end
  end.

Fixpoint scan_once (fuel : nat) (s : pystr) : option (value * pystr) :=
  match fuel with
  | O => None
  | S fuel' =>
      match s with
      | [] => None
      | c :: s' =>
          if c =? 34 then
            match scanstring s' [] with
            | Some (str, r) => Some (VStr str, r)
            | None => None
            end
          else if c =? 123 then
            match skip_ws s' with
            | c1 :: r1 =>
                if c1 =? 125 then Some (VDict [], r1)
                else parse_object fuel' (c1 :: r1) []
            | [] => None
            end
          else if c =? 91 then
            match skip_ws s' with
            | c1 :: r1 =>
                if c1 =? 93 then Some (VList [], r1)
                else parse_array fuel' (c1 :: r1) []
            | [] => None
            end
          else if startswith s (py "null") then Some (VNone, drop 4 s)
          else if startswith s (py "true") then Some (VBool true, drop 4 s)
          else if startswith s (py "false") then Some (VBool false, drop 5 s)
          else if startswith s (py "NaN") then Some (VFloat FNaN, drop 3 s)
          else if startswith s (py "Infinity")
               then Some (VFloat (FInf false), drop 8 s)
          else if startswith s (py "-Infinity")
               then Some (VFloat (FInf true), drop 9 s)
          else match_number s
      end
  end

with parse_object (fuel : nat) (s : pystr) (acc : list (pystr * value))
  : option (value * pystr) :=
  match fuel with
  | O => None
  | S fuel' =>
      match s with
      | [] => None
      | q :: s1 =>
          if q =? 34 then
            match scanstring s1 [] with
            | None => None
            | Some (key, r) =>
                match skip_ws r with
                | [] => None
                | c2 :: r2 =>
                    if c2 =? 58 then
                      match scan_once fuel' (skip_ws r2) with
                      | None => None
                      | Some (v, r3) =>
                          let acc' := dict_set acc key v in
                          match skip_ws r3 with
                          | [] => None
                          | c3 :: r4 =>
                              if c3 =? 125 then Some (VDict acc', r4)
                              else if c3 =? 44
                                   then parse_object fuel' (skip_ws r4) acc'
                              else None
                          end
                      end
                    else None
                end
            end
          else None
      end
  end

with parse_array (fuel : nat) (s : pystr) (acc : list value)
  : option (value * pystr) :=
  match fuel with
  | O => None
  | S fuel' =>
      match scan_once fuel' s with
      | None => None
      | Some (v, r) =>
          match skip_ws r with
          | [] => None
          | c :: r1 =>
              if c =? 93 then Some (VList (rev (v :: acc)), r1)
              else if c =? 44 then parse_array fuel' (skip_ws r1) (v :: acc)
              else None
          end
      end
  end.

(** [json.loads(s)]: leading white space, one value, trailing white space,
    and nothing else. *)
Definition json_loads (s : pystr) : option value :=
  match scan_once (2 * length s + 2) (skip_ws s) with
  | Some (v, r) => match skip_ws r with [] => Some v | _ :: _ => None end
  | None => None
  end.

(** What it means for the fuel to be enough: a successful run consumes
    input, and gives the same result with any fuel above twice the length
    of the input. *)
Definition enough_scan (f : nat) : Prop :=
  forall s x, scan_once f s = Some x ->
    (length (snd x) < length s)%nat /\
    forall g, (2 * length s <= g)%nat -> scan_once (S g) s = Some x.

Definition enough_object (f : nat) : Prop :=
  forall s acc x, parse_object f s acc = Some x ->
    (length (snd x) < length s)%nat /\
    forall g, (2 * length s + 1 <= g)%nat -> parse_object (S g) s acc = Some x.

Definition enough_array (f : nat) : Prop :=
  forall s acc x, parse_array f s acc = Some x ->
    (length (snd x) < length s)%nat /\
    forall g, (2 * length s + 1 <= g)%nat -> parse_array (S g) s acc = Some x.

(** JSON texts are full of double quotes, which a Rocq string literal cannot
    hold conveniently: [pyq] reads a literal in which every apostrophe
    stands for a double quote. *)
Definition pyq (s : string) : pystr :=
  map (fun c => if c =? 39 then 34 else c) (py s).

(** ** Effects, exceptions and the monad of the script *)

(** A request as [httpx] receives it: the [json=] argument is kept as the
    Python object, its encoding being [httpx]'s business. *)
Record request := mkRequest {
  req_method : pystr;
  req_url : pystr;
  req_headers : gmap pystr pystr;
  req_json : value;
  req_timeout : Z
}.

(** A response: its status, its body read as one text (what
    [response.json()] decodes) and as the sequence of lines
    [response.iter_lines()] yields. *)
Record response := mkResponse {
  status_code : Z;
  text : pystr;
  lines : list pystr
}.

Inductive exn :=
| SystemExit (msg : pystr)
| HTTPStatusError (r : response)
| TimeoutException
| ConnectError
| JSONDecodeError
| KeyError (k : value)
| IndexError
| TypeError
| AttributeError.

(** Everything the script does to the outside world. *)
Inductive effect :=
| Write (s : pystr)          (* sys.stdout.write(s) *)
| Flush                      (* sys.stdout.flush() *)
| Post (r : request)         (* httpx.post(...) *)
| OpenStream (r : request)   (* entering [with httpx.stream(...)] *)
| ReadLine (l : pystr)       (* one line pulled from iter_lines() *)
| CloseStream.               (* leaving the [with] block *)

(** A computation yields the log of its effects and either an uncaught
    exception or a result. *)
Definition M (A : Type) : Type := list effect * (exn + A).

Definition trace {A} (m : M A) : list effect := fst m.
Definition result {A} (m : M A) : exn + A := snd m.

Definition ret {A} (a : A) : M A := ([], inr a).
Definition raise {A} (e : exn) : M A := ([], inl e).
Definition tell (e : effect) : M unit := ([e], inr tt).

(** Sequencing: the second computation runs only when the first one
    returned, and its effects come after. *)
Definition bind {A B} (m : M A) (k : A -> M B) : M B :=
  match result m with
  | inl e => (trace m, inl e)
  | inr a => (trace m ++ trace (k a), result (k a))
  end.

(** A computation without effects. *)
Definition pure {A} (m : M A) : Prop := trace m = [].

#[export] Instance M_ret : MRet M := @ret.
#[export] Instance M_bind : MBind M := fun A B k m => bind m k.

(** The text standard output has received. *)
Fixpoint stdout_text (t : list effect) : pystr :=
  match t with
  | [] => []
  | Write s :: t' => s ++ stdout_text t'
  | _ :: t' => stdout_text t'
  end.

(** The requests that went out, in order. *)
Fixpoint requests_sent (t : list effect) : list request :=
  match t with
  | [] => []
  | Post r :: t' => r :: requests_sent t'
  | OpenStream r :: t' => r :: requests_sent t'
  | _ :: t' => requests_sent t'
  end.

(** The lines read from a streaming response, in order. *)
Fixpoint lines_read (t : list effect) : list pystr :=
  match t with
  | [] => []
  | ReadLine l :: t' => l :: lines_read t'
  | _ :: t' => lines_read t'
  end.

Definition NL : pystr := [10].

(** ** Subscripts and methods on decoded objects *)

(** [l[i]] on a sequence, negative indices counting from the end. *)
Definition seq_index {A} (l : list A) (i : Z) : option A :=
  let j := if (i <? 0)%Z then (i + Z.of_nat (length l))%Z else i in
  if (j <? 0)%Z then None else l !! Z.to_nat j.

(** [v[k]] for a [str] key *)
Definition getitem_str (v : value) (k : pystr) : M value :=
  match v with
  | VDict kvs =>
      match dict_get kvs k with
      | Some x => ret x
      | None => raise (KeyError (VStr k))
      end
  | _ => raise TypeError
  end.

(** [v[i]] for an [int] index *)
Definition getitem_int (v : value) (i : Z) : M value :=
  match v with
  | VList l =>
      match seq_index l i with
      | Some x => ret x
      | None => raise IndexError
      end
  | VStr s =>
      match seq_index s i with
      | Some c => ret (VStr [c])
      | None => raise IndexError
      end
  | VDict _ => raise (KeyError (VInt i))
  | _ => raise TypeError
  end.

(** [v.get(k)]: only a [dict] has the method. *)
Definition method_get (v : value) (k : pystr) : M value :=
  match v with
  | VDict kvs => ret (default VNone (dict_get kvs k))
  | _ => raise AttributeError
  end.

(** [json.loads(s)] as a computation *)
Definition loads (s : pystr) : M value :=
  match json_loads s with
  | Some v => ret v
  | None => raise JSONDecodeError
  end.

(** ** The script *)

Section Script.
Context {rt : PyRuntime}.

(** The network: what the gateway answers to a request, or the exception
    [httpx] raises when no response arrives (time-out, refused
    connection). *)
Variable net : request -> exn + response.

(** [print] of the objects [objs], separated by a space, then [end_], with
    a flush of standard output when [fl] is set. *)
Definition print (objs : list value) (end_ : pystr) (fl : bool) : M unit :=
  (fix go (first : bool) (objs : list value) : M unit :=
     match objs with
     | [] => ret tt
     | o :: objs' =>
         (if first then ret tt else tell (Write (py " ")));;
         tell (Write (py_str o));;
         go false objs'
     end) true objs;;
  tell (Write end_);;
  if fl then tell Flush else ret tt.

(** [response.raise_for_status()] *)
Definition raise_for_status (r : response) : M unit :=
  if ((200 <=? status_code r) && (status_code r <=? 299))%Z then ret tt
  else raise (HTTPStatusError r).

(** [response.json()] *)
Definition response_json (r : response) : M value := loads (text r).

Definition LLAMA_STACK_URL : pystr := py "http://localhost:8321".

Definition provider_data_header (api_key : pystr) : gmap pystr pystr :=
  {[ py "X-LlamaStack-Provider-Data" :=
       json_dumps (VDict [
         (py "passthrough_api_key", VStr api_key);
         (py "passthrough_url", VStr (py "https://api.openai.com"))
       ]) ]}.

(** [{"Content-Type": "application/json", **provider_data_header(api_key)}]:
    the entries of the unpacked mapping come last and win. *)
Definition request_headers (api_key : pystr) : gmap pystr pystr :=
  provider_data_header api_key ∪
  {[ py "Content-Type" := py "application/json" ]}.

Definition chat_request (api_key : pystr) : request :=
  {| req_method := py "POST";
     req_url := LLAMA_STACK_URL ++ py "/v1/chat/completions";
     req_headers := request_headers api_key;
     req_json := VDict [
       (py "model", VStr (py "openai/gpt-4o"));
       (py "messages", VList [VDict [
          (py "role", VStr (py "user"));
          (py "content", VStr (py "Say hello in three languages. Be brief."))
        ]])
     ];
     req_timeout := 30 |}.

(** Regular (non-streaming) chat completion. *)
Definition chat (api_key : pystr) : M unit :=
  tell (Post (chat_request api_key));;
  response ← (([], net (chat_request api_key)) : M response);
  raise_for_status response;;
  data ← response_json response;
  print [VStr (py "=== Regular ===")] NL false;;
  choices ← getitem_str data (py "choices");
  choice ← getitem_int choices 0;
  message ← getitem_str choice (py "message");
  content ← getitem_str message (py "content");
  print [content] NL false.

Definition chat_streaming_request (api_key : pystr) : request :=
  {| req_method := py "POST";
     req_url := LLAMA_STACK_URL ++ py "/v1/chat/completions";
     req_headers := request_headers api_key;
     req_json := VDict [
       (py "model", VStr (py "openai/gpt-4o"));
       (py "stream", VBool true);
       (py "messages", VList [VDict [
          (py "role", VStr (py "user"));
          (py "content", VStr (py "Count from 1 to 5."))
        ]])
     ];
     req_timeout := 30 |}.

(** The body of the [for] loop on a data frame that is not the sentinel:
    decode, extract, print when there is something to print. *)
Definition handle_payload (payload : pystr) : M unit :=
  chunk ← loads payload;
  choices ← getitem_str chunk (py "choices");
  choice ← getitem_int choices 0;
  delta ← getitem_str choice (py "delta");
  content ← method_get delta (py "content");
  if truthy content then print [content] [] true else ret tt.

(** [for line in response.iter_lines(): ...] *)
Fixpoint iter_lines_loop (ls : list pystr) : M unit :=
  match ls with
  | [] => ret tt
  | line :: rest =>
      tell (ReadLine line);;
      if negb (startswith line (py "data: ")) then iter_lines_loop rest
      else
        let payload := removeprefix line (py "data: ") in
        if pystr_eqb (strip payload) (py "[DONE]") then ret tt
        else handle_payload payload;; iter_lines_loop rest
  end.

(** [with httpx.stream(...) as response: body]: the response is closed on
    every way out of the block, and an exception raised inside goes on. *)
Definition with_stream {A} (r : request) (body : response -> M A) : M A :=
  tell (OpenStream r);;
  response ← (([], net r) : M response);
  (trace (body response) ++ [CloseStream], result (body response)).

(** Streaming chat completion. *)
Definition chat_streaming (api_key : pystr) : M unit :=
  print [VStr (NL ++ py "=== Streaming ===")] NL false;;
  with_stream (chat_streaming_request api_key) (fun response =>
    raise_for_status response;;
    iter_lines_loop (lines response));;
  print [] NL false.

Definition main (environ : gmap pystr pystr) : M unit :=
  match environ !! py "OPENAI_API_KEY" with
  | None => raise (SystemExit (py "Set OPENAI_API_KEY environment variable"))
  | Some api_key =>
      if negb (truthy (VStr api_key))
      then raise (SystemExit (py "Set OPENAI_API_KEY environment variable"))
      else chat api_key;; chat_streaming api_key
  end.

(** What the interpreter makes of the outcome of [main()]: status 0 after a
    normal return; an uncaught exception gives status 1, and a [SystemExit]
    carrying a string has that string written to standard error. *)
Definition exit_code (r : exn + unit) : Z :=
  match r with
  | inr _ => 0
  | inl _ => 1
  end.

Definition exit_diagnostic (r : exn + unit) : option pystr :=
  match r with
  | inl (SystemExit msg) => Some (msg ++ NL)
  | _ => None
  end.

End Script.

(** A success status is one from 200 to 299. *)
Definition success (r : response) : Prop :=
  (200 <= status_code r <= 299)%Z.

(** ** Classifying the lines of a stream

    The two tests the read loop applies to a line, named for the statements
    below. *)

(** A line is a data frame when it starts with the six-character marker,
    and the sentinel frame when its payload, trimmed, is the token. *)
Definition is_data_frame (line : pystr) : bool :=
  startswith line (py "data: ").

Definition is_sentinel (line : pystr) : bool :=
  is_data_frame line &&
  pystr_eqb (strip (removeprefix line (py "data: "))) (py "[DONE]").

(** A line carries the fragment [s] when it is a data frame, not the
    sentinel, and its payload decodes to a chunk whose first choice has a
    delta object with the string [s] as its [content]. *)
Definition carries_fragment (line s : pystr) : Prop :=
  startswith line (py "data: ") = true /\
  strip (removeprefix line (py "data: ")) <> py "[DONE]" /\
  exists kvs fd tl d,
    json_loads (removeprefix line (py "data: ")) = Some (VDict kvs) /\
    dict_get kvs (py "choices") = Some (VList (VDict fd :: tl)) /\
    dict_get fd (py "delta") = Some (VDict d) /\
    dict_get d (py "content") = Some (VStr s).

(** ** Sample environments

    A runtime, a credential, a few lines and two gateways, used to run the
    script on concrete inputs. *)

Definition sample_runtime : PyRuntime :=
  {| float_repr := fun _ => py "1.5"; str_repr := fun s => py "'" ++ s ++ py "'" |}.

Definition sample_key : pystr := py "sk-test".

(** A credential with a quote, a backslash, a newline, an accented letter,
    a character beyond the basic plane and a lone low surrogate. *)
Definition awkward_key : pystr := [34; 92; 10; 233; 0x1F600; 0xDC80].

Definition frame_A : pystr := pyq "data: {'choices':[{'delta':{'content':'A'}}]}".
Definition frame_B : pystr := pyq "data: {'choices':[{'delta':{'content':'B'}}]}".
Definition frame_role : pystr :=
  pyq "data: {'choices':[{'delta':{'role':'assistant'}}]}".
Definition frame_done : pystr := py "data: [DONE]".
Definition frame_junk : pystr := py "data: junk".
Definition comment_line : pystr := py ": keep-alive".

(** The three lines of the streaming example, and the same stream cut
    before its sentinel. *)
Definition stream_AB_done : list pystr := [frame_A; frame_B; frame_done].

Definition stream_AB_eof : list pystr := [frame_A; frame_B].

Definition response_ok : response :=
  {| status_code := 200;
     text := pyq "{'choices':[{'message':{'content':'hi'}}]}";
     lines := stream_AB_done |}.

Definition response_401 : response :=
  {| status_code := 401;
     text := pyq "{'detail':'Invalid API key'}";
     lines := [frame_A] |}.

(** A gateway that answers every request with status 200, the body of the
    synchronous example and the lines of the streaming example. *)
Definition gateway_ok (r : request) : exn + response := inr response_ok.

(** A gateway that rejects every request with status 401. *)
Definition gateway_401 (r : request) : exn + response := inr response_401.

(** ** Further observers and samples *)

(** How many times the streaming response was closed. *)
Fixpoint stream_closes (t : list effect) : nat :=
  match t with
  | [] => 0%nat
  | CloseStream :: t' => S (stream_closes t')
  | _ :: t' => stream_closes t'
  end.

(** The characters a header value may hold without any risk: printable
    ASCII. *)
Definition printable_ascii (c : N) : Prop := 32 <= c <= 126.

(** One step of the read loop as seen in the log: the read of a line,
    alone or followed by one fragment, the empty end string and a flush. *)
Definition loop_block (b : list effect) : Prop :=
  exists line, b = [ReadLine line] \/
    exists s, b = [ReadLine line; Write s; Write []; Flush].

(** A gateway that cannot be reached. *)
Definition gateway_down (r : request) : exn + response := inl ConnectError.



(** A sentinel line with white space around the token, a chunk whose delta
    is [null], and a two-line stream with a keep-alive in front. *)
Definition frame_done_padded : pystr :=
  py "data: " ++ [32; 9] ++ py "[DONE]" ++ [32; 13].

Definition frame_null_delta : pystr :=
  pyq "data: {'choices':[{'delta':null}]}".

(** * Properties *)

(** ** The monad *)

Lemma M_eta {A} (m : M A) : m = (trace m, result m).
Proof. destruct m; reflexivity. Qed.

Lemma trace_bind {A B} (m : M A) (k : A -> M B) :
  trace (m ≫= k) =
  match result m with
  | inl _ => trace m
  | inr a => trace m ++ trace (k a)
  end.
Proof. unfold mbind, M_bind, bind. destruct (result m); reflexivity. Qed.

Lemma result_bind {A B} (m : M A) (k : A -> M B) :
  result (m ≫= k) =
  match result m with
  | inl e => inl e
  | inr a => result (k a)
  end.
Proof. unfold mbind, M_bind, bind. destruct (result m); reflexivity. Qed.

Lemma bind_ret {A B} (a : A) (k : A -> M B) : (ret a ≫= k) = k a.
Proof. unfold mbind, M_bind, bind. simpl. symmetry. apply M_eta. Qed.

Lemma bind_raise {A B} (e : exn) (k : A -> M B) : (raise e ≫= k) = raise e.
Proof. reflexivity. Qed.

Lemma bind_tell {B} (e : effect) (k : M B) :
  (tell e ;; k) = (e :: trace k, result k).
Proof. reflexivity. Qed.

Lemma bind_logged {A B} (t : list effect) (a : A) (k : A -> M B) :
  ((t, inr a) ≫= k) = (t ++ trace (k a), result (k a)).
Proof. reflexivity. Qed.

Lemma bind_returns {A B} (m : M A) (k : A -> M B) (a : A) :
  result m = inr a -> (m ≫= k) = (trace m ++ trace (k a), result (k a)).
Proof. intros H. unfold mbind, M_bind, bind. rewrite H. reflexivity. Qed.

Lemma bind_raises {A B} (m : M A) (k : A -> M B) (e : exn) :
  result m = inl e -> (m ≫= k) = (trace m, inl e).
Proof. intros H. unfold mbind, M_bind, bind. rewrite H. reflexivity. Qed.

Lemma stdout_text_app (t1 t2 : list effect) :
  stdout_text (t1 ++ t2) = stdout_text t1 ++ stdout_text t2.
Proof.
  induction t1 as [|e t1 IH]; [reflexivity|].
  destruct e; simpl; rewrite ?IH, ?app_assoc; reflexivity.
Qed.

Lemma lines_read_app (t1 t2 : list effect) :
  lines_read (t1 ++ t2) = lines_read t1 ++ lines_read t2.
Proof.
  induction t1 as [|e t1 IH]; [reflexivity|].
  destruct e; simpl; rewrite ?IH; reflexivity.
Qed.

Lemma requests_sent_app (t1 t2 : list effect) :
  requests_sent (t1 ++ t2) = requests_sent t1 ++ requests_sent t2.
Proof.
  induction t1 as [|e t1 IH]; [reflexivity|].
  destruct e; simpl; rewrite ?IH; reflexivity.
Qed.

Lemma pystr_eqb_eq (a b : pystr) : pystr_eqb a b = true <-> a = b.
Proof.
  revert b. induction a as [|x a IH]; intros [|y b]; simpl; try easy.
  rewrite andb_true_iff, N.eqb_eq, IH. split.
  - intros [-> ->]; reflexivity.
  - intros H; injection H; auto.
Qed.

(** ** The read loop, one line at a time *)

Section Loop.
Context {rt : PyRuntime}.

Lemma loop_nil : iter_lines_loop [] = ([], inr tt).
Proof. reflexivity. Qed.

Lemma loop_skip (line : pystr) (rest : list pystr) :
  is_data_frame line = false ->
  iter_lines_loop (line :: rest) =
  (ReadLine line :: trace (iter_lines_loop rest),
   result (iter_lines_loop rest)).
Proof.
  unfold is_data_frame. intros H.
  cbn [iter_lines_loop]. rewrite H. reflexivity.
Qed.

Lemma loop_sentinel (line : pystr) (rest : list pystr) :
  is_sentinel line = true ->
  iter_lines_loop (line :: rest) = ([ReadLine line], inr tt).
Proof.
  unfold is_sentinel, is_data_frame. intros [H1 H2]%andb_true_iff.
  cbn [iter_lines_loop]. rewrite H1, H2. reflexivity.
Qed.

Lemma loop_frame (line : pystr) (rest : list pystr) :
  is_data_frame line = true ->
  is_sentinel line = false ->
  iter_lines_loop (line :: rest) =
  (tell (ReadLine line);;
   handle_payload (removeprefix line (py "data: "));;
   iter_lines_loop rest).
Proof.
  unfold is_sentinel. intros H1 H2. rewrite H1 in H2. simpl in H2.
  unfold is_data_frame in H1.
  cbn [iter_lines_loop]. rewrite H1, H2. reflexivity.
Qed.

End Loop.

(** ** Pure steps

    Decoding, subscripts and [.get] have no effect: each either returns or
    raises, with an empty log. *)

Lemma pure_cases {A} (m : M A) :
  pure m -> (exists a, m = ret a) \/ (exists e, m = raise e).
Proof.
  unfold pure. destruct m as [t [e|a]]; simpl; intros ->; eauto.
Qed.

Lemma loads_pure (s : pystr) : pure (loads s).
Proof. unfold pure, loads. destruct (json_loads s); reflexivity. Qed.

Lemma getitem_str_pure (v : value) (k : pystr) : pure (getitem_str v k).
Proof.
  unfold pure, getitem_str. destruct v; try reflexivity.
  destruct (dict_get kvs k); reflexivity.
Qed.

Lemma getitem_int_pure (v : value) (i : Z) : pure (getitem_int v i).
Proof.
  unfold pure, getitem_int. destruct v; try reflexivity.
  - destruct (seq_index s i); reflexivity.
  - destruct (seq_index l i); reflexivity.
Qed.

Lemma getitem_str_found (kvs : list (pystr * value)) (k : pystr) (x : value) :
  dict_get kvs k = Some x -> getitem_str (VDict kvs) k = ret x.
Proof. intros H. unfold getitem_str. rewrite H. reflexivity. Qed.

Lemma getitem_str_missing (kvs : list (pystr * value)) (k : pystr) :
  dict_get kvs k = None -> getitem_str (VDict kvs) k = raise (KeyError (VStr k)).
Proof. intros H. unfold getitem_str. rewrite H. reflexivity. Qed.

Lemma method_get_pure (v : value) (k : pystr) : pure (method_get v k).
Proof. unfold pure, method_get. destruct v; reflexivity. Qed.

Create HintDb pure_db.

#[local] Hint Resolve loads_pure getitem_str_pure getitem_int_pure
  method_get_pure : pure_db.

(** Case analysis on the pure step at the head of a sequence: it returned
    [x] and the sequence goes on, or it raised and the sequence is over. *)
Tactic Notation "pure_step" constr(m) "as" ident(x) :=
  let H := fresh in
  let e := fresh "e" in
  assert (H : pure m) by (auto with pure_db || reflexivity);
  destruct (pure_cases m H) as [[x ->] | [e ->]];
  [rewrite bind_ret | rewrite bind_raise]; clear H.

Section Frames.
Context {rt : PyRuntime}.

Lemma print_one (v : value) (end_ : pystr) :
  print [v] end_ true = ([Write (py_str v); Write end_; Flush], inr tt).
Proof. reflexivity. Qed.

Lemma print_none (end_ : pystr) : print [] end_ false = ([Write end_], inr tt).
Proof. reflexivity. Qed.

(** One frame either raises without output, returns without output, or
    returns after writing one fragment and flushing. *)
Lemma handle_payload_cases (p : pystr) :
  (exists e, handle_payload p = ([], inl e)) \/
  handle_payload p = ([], inr tt) \/
  (exists v, truthy v = true /\
             handle_payload p = ([Write (py_str v); Write []; Flush], inr tt)).
Proof.
  unfold handle_payload.
  pure_step (loads p) as chunk; [|left; eauto].
  pure_step (getitem_str chunk (py "choices")) as choices; [|left; eauto].
  pure_step (getitem_int choices 0) as first; [|left; eauto].
  pure_step (getitem_str first (py "delta")) as delta; [|left; eauto].
  pure_step (method_get delta (py "content")) as content; [|left; eauto].
  destruct (truthy content) eqn:Ht.
  - right; right. exists content. split; [assumption|]. apply print_one.
  - right; left. reflexivity.
Qed.

Lemma handle_payload_reads_nothing (p : pystr) :
  lines_read (trace (handle_payload p)) = [].
Proof.
  destruct (handle_payload_cases p) as [[e ->] | [-> | [v [_ ->]]]];
    reflexivity.
Qed.

(** The lines the loop reads are always an initial segment of the stream. *)
Lemma loop_reads_prefix (ls : list pystr) :
  exists n, lines_read (trace (iter_lines_loop ls)) = take n ls.
Proof.
  induction ls as [|line rest [n IH]].
  - exists 0%nat. reflexivity.
  - destruct (is_data_frame line) eqn:Hd.
    + destruct (is_sentinel line) eqn:Hs.
      * rewrite (loop_sentinel _ _ Hs). exists 1%nat. reflexivity.
      * rewrite (loop_frame _ _ Hd Hs), bind_tell.
        cbn [trace fst lines_read]. rewrite trace_bind.
        destruct (result (handle_payload _)).
        -- exists 1%nat. rewrite handle_payload_reads_nothing. reflexivity.
        -- exists (S n). rewrite lines_read_app, handle_payload_reads_nothing.
           simpl. rewrite IH. reflexivity.
    + rewrite (loop_skip _ _ Hd). exists (S n). simpl. rewrite IH. reflexivity.
Qed.

(** What follows a sentinel never matters. *)
Lemma loop_stops_at_sentinel (pre rest : list pystr) (line : pystr) :
  is_sentinel line = true ->
  iter_lines_loop (pre ++ line :: rest) = iter_lines_loop (pre ++ [line]).
Proof.
  intros Hs. induction pre as [|l pre IH]; simpl app.
  - rewrite !(loop_sentinel _ _ Hs). reflexivity.
  - destruct (is_data_frame l) eqn:Hd.
    + destruct (is_sentinel l) eqn:Hl.
      * rewrite !(loop_sentinel _ _ Hl). reflexivity.
      * rewrite !(loop_frame _ _ Hd Hl), IH. reflexivity.
    + rewrite !(loop_skip _ _ Hd), IH. reflexivity.
Qed.

(** C3: a data frame whose trimmed payload is the sentinel ends the loop at
    once.  The loop returns to its caller having read that line and nothing
    more; whatever the stream holds after the sentinel changes neither the
    effects nor the result, and the lines read never go past it. *)
Theorem sentinel_stops_processing (pre rest : list pystr) (line : pystr) :
  startswith line (py "data: ") = true ->
  strip (removeprefix line (py "data: ")) = py "[DONE]" ->
  iter_lines_loop (line :: rest) = ([ReadLine line], inr tt) /\
  iter_lines_loop (pre ++ line :: rest) = iter_lines_loop (pre ++ [line]) /\
  exists n, lines_read (trace (iter_lines_loop (pre ++ line :: rest)))
            = take n (pre ++ [line]).
Proof.
  intros Hd Hp.
  assert (Hs : is_sentinel line = true).
  { unfold is_sentinel, is_data_frame. rewrite Hd, Hp. reflexivity. }
  split; [apply loop_sentinel, Hs|].
  split; [apply loop_stops_at_sentinel, Hs|].
  rewrite (loop_stops_at_sentinel _ _ _ Hs). apply loop_reads_prefix.
Qed.

(** C7: a line without the data marker is passed over.  Reading it is its
    only effect: the loop goes on with the rest of the stream exactly as if
    the line were not there, whatever the line holds (it is not decoded, so
    it cannot raise), and wherever it sits in the stream the text written
    and the outcome are those of the stream without it. *)
Theorem non_data_line_skipped (pre rest : list pystr) (line : pystr) :
  startswith line (py "data: ") = false ->
  iter_lines_loop (line :: rest) =
    (ReadLine line :: trace (iter_lines_loop rest),
     result (iter_lines_loop rest)) /\
  (exists t1 t2,
     trace (iter_lines_loop (pre ++ rest)) = t1 ++ t2 /\
     (trace (iter_lines_loop (pre ++ line :: rest)) = t1 ++ ReadLine line :: t2
      \/ trace (iter_lines_loop (pre ++ line :: rest)) = t1 ++ t2)) /\
  stdout_text (trace (iter_lines_loop (pre ++ line :: rest))) =
    stdout_text (trace (iter_lines_loop (pre ++ rest))) /\
  result (iter_lines_loop (pre ++ line :: rest)) =
    result (iter_lines_loop (pre ++ rest)).
Proof.
  intros Hn. change (is_data_frame line = false) in Hn.
  split; [apply loop_skip, Hn|].
  assert (Hex : (exists t1 t2,
     trace (iter_lines_loop (pre ++ rest)) = t1 ++ t2 /\
     (trace (iter_lines_loop (pre ++ line :: rest)) = t1 ++ ReadLine line :: t2
      \/ trace (iter_lines_loop (pre ++ line :: rest)) = t1 ++ t2)) /\
     result (iter_lines_loop (pre ++ line :: rest)) =
       result (iter_lines_loop (pre ++ rest))).
  { induction pre as [|l pre [(t1 & t2 & E1 & E2) IHr]]; simpl app.
    - rewrite (loop_skip _ _ Hn). split; [|reflexivity].
      exists [], (trace (iter_lines_loop rest)). split; [reflexivity|].
      left. reflexivity.
    - destruct (is_data_frame l) eqn:Hd.
      + destruct (is_sentinel l) eqn:Hl.
        * rewrite !(loop_sentinel _ _ Hl). split; [|reflexivity].
          exists [ReadLine l], []. split; [reflexivity|]. right. reflexivity.
        * rewrite !(loop_frame _ _ Hd Hl), !bind_tell.
          cbn [trace result fst snd]. rewrite !trace_bind, !result_bind.
          destruct (result (handle_payload _)).
          -- split; [|reflexivity].
             exists (ReadLine l :: trace (handle_payload
                       (removeprefix l (py "data: ")))), [].
             rewrite app_nil_r. split; [reflexivity|]. right. reflexivity.
          -- split; [|exact IHr].
             exists (ReadLine l :: trace (handle_payload
                       (removeprefix l (py "data: "))) ++ t1), t2.
             rewrite E1. split; [simpl; rewrite app_assoc; reflexivity|].
             destruct E2 as [-> | ->]; [left | right];
               simpl; rewrite app_assoc; reflexivity.
      + rewrite !(loop_skip _ _ Hd). cbn [trace result fst snd].
        split; [|exact IHr].
        exists (ReadLine l :: t1), t2. rewrite E1. split; [reflexivity|].
        destruct E2 as [-> | ->]; [left | right]; reflexivity. }
  destruct Hex as [(t1 & t2 & E1 & E2) Hr].
  split; [exists t1, t2; auto|]. split; [|exact Hr].
  rewrite E1. destruct E2 as [-> | ->]; [|reflexivity].
  rewrite !stdout_text_app. reflexivity.
Qed.

(** A frame of the expected shape: what [handle_payload] does is decided by
    the [content] entry of the delta object alone. *)
Lemma handle_payload_delta (p : pystr) (kvs fd d : list (pystr * value))
    (tl : list value) :
  json_loads p = Some (VDict kvs) ->
  dict_get kvs (py "choices") = Some (VList (VDict fd :: tl)) ->
  dict_get fd (py "delta") = Some (VDict d) ->
  handle_payload p =
    let content := default VNone (dict_get d (py "content")) in
    if truthy content
    then ([Write (py_str content); Write []; Flush], inr tt)
    else ([], inr tt).
Proof.
  intros Hp Hc Hd. unfold handle_payload, loads. rewrite Hp, bind_ret.
  rewrite (getitem_str_found _ _ _ Hc), bind_ret.
  change (getitem_int (VList (VDict fd :: tl)) 0) with (@ret value (VDict fd)).
  rewrite bind_ret, (getitem_str_found _ _ _ Hd), bind_ret.
  unfold method_get. rewrite bind_ret.
  cbv zeta. destruct (truthy _); reflexivity.
Qed.


(** C6: for a data frame that is not the sentinel and whose chunk has a
    delta object, something is written exactly when the delta object has a
    [content] entry that Python holds true (for a string: a non-empty one).
    The fragment is then written and standard output flushed before the
    next line is read; without such an entry the frame writes nothing,
    raises nothing, and the loop goes on. *)
Theorem fragment_emitted_iff_content
    (line : pystr) (rest : list pystr)
    (kvs fd d : list (pystr * value)) (tl : list value) :
  startswith line (py "data: ") = true ->
  strip (removeprefix line (py "data: ")) <> py "[DONE]" ->
  json_loads (removeprefix line (py "data: ")) = Some (VDict kvs) ->
  dict_get kvs (py "choices") = Some (VList (VDict fd :: tl)) ->
  dict_get fd (py "delta") = Some (VDict d) ->
  (trace (handle_payload (removeprefix line (py "data: "))) <> [] <->
   exists v, dict_get d (py "content") = Some v /\ truthy v = true) /\
  (forall v, dict_get d (py "content") = Some v -> truthy v = true ->
     iter_lines_loop (line :: rest) =
       (ReadLine line :: Write (py_str v) :: Write [] :: Flush
          :: trace (iter_lines_loop rest),
        result (iter_lines_loop rest))) /\
  (dict_get d (py "content") = None \/
   (exists v, dict_get d (py "content") = Some v /\ truthy v = false) ->
     handle_payload (removeprefix line (py "data: ")) = ([], inr tt) /\
     iter_lines_loop (line :: rest) =
       (ReadLine line :: trace (iter_lines_loop rest),
        result (iter_lines_loop rest))) /\
  (forall s, dict_get d (py "content") = Some (VStr s) ->
     (truthy (VStr s) = true <-> s <> []) /\ py_str (VStr s) = s).
Proof.
  intros Hd Hns Hp Hc Hdl.
  assert (Hframe : is_data_frame line = true) by exact Hd.
  assert (Hsent : is_sentinel line = false).
  { unfold is_sentinel. rewrite Hframe. simpl.
    destruct (pystr_eqb _ _) eqn:E; [|reflexivity].
    apply pystr_eqb_eq in E. contradiction. }
  pose proof (handle_payload_delta _ _ _ _ _ Hp Hc Hdl) as Hh.
  cbv zeta in Hh.
  rewrite (loop_frame _ rest Hframe Hsent), bind_tell, Hh.
  split; [|split; [|split]].
  - destruct (dict_get d (py "content")) as [v|]; simpl.
    + destruct (truthy v) eqn:Ht; simpl.
      * split; [intros _; eauto | discriminate].
      * split; [congruence|]. intros [v' [[= <-] Ht']]. congruence.
    + split; [congruence|]. intros [v' [[=] _]].
  - intros v Hv Ht. rewrite Hv. simpl. rewrite Ht. reflexivity.
  - intros [Hn | [v [Hv Ht]]].
    + rewrite Hn. split; reflexivity.
    + rewrite Hv. simpl. rewrite Ht. split; reflexivity.
  - intros s _. split; [|reflexivity].
    destruct s; simpl; split; congruence.
Qed.

End Frames.

(** ** The two calls and the entry point *)

Section Calls.
Context {rt : PyRuntime}.
Variable net : request -> exn + response.

Lemma raise_for_status_ok (r : response) :
  success r -> raise_for_status r = ret tt.
Proof.
  unfold success, raise_for_status. intros [H1 H2].
  apply Z.leb_le in H1, H2. rewrite H1, H2. reflexivity.
Qed.

Lemma raise_for_status_error (r : response) :
  ~ success r -> raise_for_status r = raise (HTTPStatusError r).
Proof.
  unfold success, raise_for_status. intros H.
  destruct (200 <=? status_code r)%Z eqn:H1;
    destruct (status_code r <=? 299)%Z eqn:H2; try reflexivity.
  apply Z.leb_le in H1, H2. lia.
Qed.

(** The streaming call against a gateway that answers with a success
    status: banner, request, the read loop, the close, and the final
    newline when the loop returned. *)
Lemma chat_streaming_unfold (api_key : pystr) (r : response) :
  net (chat_streaming_request api_key) = inr r ->
  success r ->
  chat_streaming net api_key =
  ([Write (NL ++ py "=== Streaming ==="); Write NL;
    OpenStream (chat_streaming_request api_key)]
   ++ trace (iter_lines_loop (lines r))
   ++ CloseStream ::
      match result (iter_lines_loop (lines r)) with
      | inr _ => [Write NL]
      | inl _ => []
      end,
   result (iter_lines_loop (lines r))).
Proof.
  intros Hnet Hok. unfold chat_streaming, with_stream.
  rewrite Hnet. change ([], inr r) with (@ret response r).
  rewrite bind_tell, bind_ret, (raise_for_status_ok _ Hok), bind_ret.
  destruct (iter_lines_loop (lines r)) as [t [e | []]]; [reflexivity|].
  unfold mbind, M_bind, bind. cbn. rewrite <- app_assoc. reflexivity.
Qed.

Lemma print_line (v : value) :
  print [v] NL false = ([Write (py_str v); Write NL], inr tt).
Proof. reflexivity. Qed.

(** The blocking call sends exactly one request, whatever comes back. *)
Lemma chat_requests (api_key : pystr) :
  requests_sent (trace (chat net api_key)) = [chat_request api_key].
Proof.
  unfold chat. rewrite bind_tell. cbn [trace fst requests_sent]. f_equal.
  pure_step (([], net (chat_request api_key)) : M response) as resp;
    [|reflexivity].
  unfold raise_for_status, response_json.
  destruct ((200 <=? status_code resp) && (status_code resp <=? 299))%Z;
    [rewrite bind_ret | reflexivity].
  pure_step (loads (text resp)) as data; [|reflexivity].
  rewrite print_line, bind_logged.
  cbn [trace fst requests_sent app].
  pure_step (getitem_str data (py "choices")) as choices; [|reflexivity].
  pure_step (getitem_int choices 0) as first; [|reflexivity].
  pure_step (getitem_str first (py "message")) as message; [|reflexivity].
  pure_step (getitem_str message (py "content")) as content; [|reflexivity].
  reflexivity.
Qed.

Lemma handle_payload_sends_nothing (p : pystr) :
  requests_sent (trace (handle_payload p)) = [].
Proof.
  destruct (handle_payload_cases p) as [[e ->] | [-> | [v [_ ->]]]];
    reflexivity.
Qed.

Lemma loop_sends_nothing (ls : list pystr) :
  requests_sent (trace (iter_lines_loop ls)) = [].
Proof.
  induction ls as [|line rest IH]; [reflexivity|].
  destruct (is_data_frame line) eqn:Hd.
  - destruct (is_sentinel line) eqn:Hs.
    + rewrite (loop_sentinel _ _ Hs). reflexivity.
    + rewrite (loop_frame _ _ Hd Hs), bind_tell.
      cbn [trace fst requests_sent]. rewrite trace_bind.
      destruct (result (handle_payload _));
        rewrite ?requests_sent_app, handle_payload_sends_nothing, ?IH;
        reflexivity.
  - rewrite (loop_skip _ _ Hd). exact IH.
Qed.

(** So does the streaming call. *)
Lemma chat_streaming_requests (api_key : pystr) :
  requests_sent (trace (chat_streaming net api_key))
  = [chat_streaming_request api_key].
Proof.
  unfold chat_streaming, with_stream.
  rewrite print_line, bind_logged. cbn [trace fst].
  rewrite requests_sent_app. cbn [requests_sent app].
  rewrite trace_bind, bind_tell. cbn [trace result fst snd].
  pure_step (([], net (chat_streaming_request api_key)) : M response)
    as resp.
  - cbn [trace result fst snd].
    assert (Hbody : requests_sent (trace (raise_for_status resp;;
                      iter_lines_loop (lines resp))) = []).
    { unfold raise_for_status.
      destruct ((200 <=? status_code resp)
                && (status_code resp <=? 299))%Z;
        [rewrite bind_ret; apply loop_sends_nothing | reflexivity]. }
    destruct (result (raise_for_status resp;;
                      iter_lines_loop (lines resp)));
      rewrite ?requests_sent_app; cbn [requests_sent];
      rewrite ?requests_sent_app, Hbody; reflexivity.
  - reflexivity.
Qed.

(** C8: without the credential variable the entry point raises
    [SystemExit] with its diagnostic before doing anything else.  The log
    is empty, so no request went out and neither call ran (each of them
    logs at least one effect); the process ends with a non-zero status and
    the diagnostic on standard error. *)
Theorem missing_credential_is_fatal (environ : gmap pystr pystr) :
  environ !! py "OPENAI_API_KEY" = None ->
  main net environ =
    ([], inl (SystemExit (py "Set OPENAI_API_KEY environment variable"))) /\
  requests_sent (trace (main net environ)) = [] /\
  (forall k, trace (chat net k) <> [] /\ trace (chat_streaming net k) <> []) /\
  exit_code (result (main net environ)) <> 0%Z /\
  exit_diagnostic (result (main net environ)) =
    Some (py "Set OPENAI_API_KEY environment variable" ++ NL).
Proof.
  intros H. unfold main. rewrite H.
  repeat split; try reflexivity; try discriminate.
Qed.

(** C10: a credential variable set to the empty string is handled exactly
    as a missing one: same exception, same diagnostic, empty log.  Every
    request the entry point ever sends carries the header built from a
    non-empty credential read from the environment, although the builder
    itself returns a header for the empty credential like for any other. *)
Theorem empty_credential_is_fatal (environ : gmap pystr pystr) :
  environ !! py "OPENAI_API_KEY" = Some [] ->
  main net environ = main net (delete (py "OPENAI_API_KEY") environ) /\
  main net environ =
    ([], inl (SystemExit (py "Set OPENAI_API_KEY environment variable"))) /\
  (forall (env' : gmap pystr pystr) (req : request),
     In req (requests_sent (trace (main net env'))) ->
     exists k, env' !! py "OPENAI_API_KEY" = Some k /\ k <> [] /\
               req_headers req = request_headers k) /\
  provider_data_header [] !! py "X-LlamaStack-Provider-Data" =
    Some (pyq "{'passthrough_api_key': '', 'passthrough_url': 'https://api.openai.com'}").
Proof.
  intros H. split; [|split; [|split]].
  - unfold main. rewrite H, lookup_delete_eq. reflexivity.
  - unfold main. rewrite H. reflexivity.
  - intros env' req. unfold main.
    destruct (env' !! py "OPENAI_API_KEY") as [k|]; [|intros []].
    destruct k as [|c k]; [intros []|]. cbn [truthy negb].
    rewrite trace_bind.
    destruct (result (chat net (c :: k)));
      rewrite ?requests_sent_app, ?chat_requests, ?chat_streaming_requests;
      cbn [In app]; intros Hin; exists (c :: k);
      (split; [reflexivity|]; split; [discriminate|]);
      intuition subst; reflexivity.
  - reflexivity.
Qed.

(** The blocking call against a gateway that answers with a success
    status and the body of the synchronous example. *)
Lemma chat_hi (api_key : pystr) (r : response) :
  net (chat_request api_key) = inr r ->
  success r ->
  text r = pyq "{'choices':[{'message':{'content':'hi'}}]}" ->
  chat net api_key =
    ([Post (chat_request api_key);
      Write (py "=== Regular ==="); Write NL; Write (py "hi"); Write NL],
     inr tt).
Proof.
  intros Hnet Hok Htext. unfold chat.
  rewrite Hnet. change ([], inr r) with (@ret response r).
  rewrite bind_tell, bind_ret, (raise_for_status_ok _ Hok), bind_ret.
  unfold response_json. rewrite Htext. reflexivity.
Qed.

(** C5, as amended: on a success response whose body is the example
    object, the blocking call raises nothing and writes its banner line,
    then the message ["hi"], then a newline. *)
Theorem chat_prints_banner_and_message (api_key : pystr) (r : response) :
  net (chat_request api_key) = inr r ->
  (200 <= status_code r <= 299)%Z ->
  text r = pyq "{'choices':[{'message':{'content':'hi'}}]}" ->
  result (chat net api_key) = inr tt /\
  trace (chat net api_key) =
    [Post (chat_request api_key);
     Write (py "=== Regular ==="); Write NL; Write (py "hi"); Write NL] /\
  stdout_text (trace (chat net api_key)) =
    py "=== Regular ===" ++ NL ++ py "hi" ++ NL.
Proof.
  intros Hnet Hok Htext. rewrite (chat_hi _ _ Hnet Hok Htext).
  repeat split; reflexivity.
Qed.

(** C2, as amended: on a non-success status either call raises
    [HTTPStatusError] carrying the response.  The blocking call has then
    written nothing.  The streaming call has written its banner line, which
    it prints before opening the stream, and nothing else: no line of the
    response is read, no fragment and no final newline is written, and the
    stream is closed. *)
Theorem non_success_status_raises (api_key : pystr) (r : response) :
  ~ (200 <= status_code r <= 299)%Z ->
  (net (chat_request api_key) = inr r ->
   chat net api_key =
     ([Post (chat_request api_key)], inl (HTTPStatusError r)) /\
   stdout_text (trace (chat net api_key)) = []) /\
  (net (chat_streaming_request api_key) = inr r ->
   chat_streaming net api_key =
     ([Write (NL ++ py "=== Streaming ==="); Write NL;
       OpenStream (chat_streaming_request api_key); CloseStream],
      inl (HTTPStatusError r)) /\
   lines_read (trace (chat_streaming net api_key)) = [] /\
   stdout_text (trace (chat_streaming net api_key)) =
     NL ++ py "=== Streaming ===" ++ NL).
Proof.
  intros Hbad. split; intros Hnet.
  - assert (E : chat net api_key =
               ([Post (chat_request api_key)], inl (HTTPStatusError r))).
    { unfold chat. rewrite Hnet. change ([], inr r) with (@ret response r).
      rewrite bind_tell, bind_ret, (raise_for_status_error _ Hbad).
      reflexivity. }
    rewrite E. split; reflexivity.
  - assert (E : chat_streaming net api_key =
               ([Write (NL ++ py "=== Streaming ==="); Write NL;
                 OpenStream (chat_streaming_request api_key); CloseStream],
                inl (HTTPStatusError r))).
    { unfold chat_streaming, with_stream. rewrite Hnet.
      change ([], inr r) with (@ret response r).
      rewrite bind_tell, bind_ret, (raise_for_status_error _ Hbad).
      reflexivity. }
    rewrite E. repeat split; reflexivity.
Qed.

(** A frame that returns is followed by the rest of the stream. *)
Lemma loop_frame_returns (line : pystr) (rest : list pystr) :
  startswith line (py "data: ") = true ->
  strip (removeprefix line (py "data: ")) <> py "[DONE]" ->
  result (handle_payload (removeprefix line (py "data: "))) = inr tt ->
  iter_lines_loop (line :: rest) =
    (ReadLine line :: trace (handle_payload (removeprefix line (py "data: ")))
       ++ trace (iter_lines_loop rest),
     result (iter_lines_loop rest)).
Proof.
  intros Hd Hns Hret.
  assert (Hsent : is_sentinel line = false).
  { unfold is_sentinel, is_data_frame. rewrite Hd. simpl.
    destruct (pystr_eqb _ _) eqn:E; [|reflexivity].
    apply pystr_eqb_eq in E. contradiction. }
  rewrite (loop_frame _ _ Hd Hsent), bind_tell, (bind_returns _ _ tt Hret).
  reflexivity.
Qed.

(** A stream of content frames, ended by a sentinel or by nothing, writes
    the fragments one after the other in the order of the lines. *)
Lemma stream_concatenates (frames frags ending : list pystr) :
  Forall2 carries_fragment frames frags ->
  (ending = [] \/
   exists line rest, ending = line :: rest /\
     startswith line (py "data: ") = true /\
     strip (removeprefix line (py "data: ")) = py "[DONE]") ->
  result (iter_lines_loop (frames ++ ending)) = inr tt /\
  stdout_text (trace (iter_lines_loop (frames ++ ending))) = concat frags.
Proof.
  intros HF Hend. induction HF as [|line s frames frags Hline _ IH].
  - destruct Hend as [-> | (line & rest & -> & Hd & Hp)]; [split; reflexivity|].
    simpl app. rewrite loop_sentinel; [split; reflexivity|].
    unfold is_sentinel, is_data_frame. rewrite Hd, Hp. reflexivity.
  - destruct Hline as (Hd & Hns & kvs & fd & tl & d & Hp & Hc & Hdl & Hs).
    pose proof (handle_payload_delta _ _ _ _ _ Hp Hc Hdl) as Hh.
    rewrite Hs in Hh. cbv zeta in Hh. simpl in Hh.
    assert (Hret : result (handle_payload (removeprefix line (py "data: ")))
                   = inr tt) by (rewrite Hh; destruct s; reflexivity).
    assert (Hout : stdout_text (trace (handle_payload
                     (removeprefix line (py "data: ")))) = s).
    { rewrite Hh. destruct s; [reflexivity|]. simpl. rewrite app_nil_r.
      reflexivity. }
    simpl app. rewrite (loop_frame_returns _ _ Hd Hns Hret).
    cbn [trace result fst snd stdout_text concat].
    rewrite stdout_text_app, Hout. destruct IH as [-> ->]. split; reflexivity.
Qed.

(** After a loop that returned, the final [print()] adds one newline and
    the call returns. *)
Lemma loop_then_newline (ls : list pystr) :
  result (iter_lines_loop ls) = inr tt ->
  (iter_lines_loop ls;; print [] NL false) =
    (trace (iter_lines_loop ls) ++ [Write NL], inr tt).
Proof. intros H. rewrite (bind_returns _ _ tt H). reflexivity. Qed.

(** C1: on the three lines of the example the read loop followed by the
    final [print()] returns normally and writes ["AB"] and one newline, the
    fragments in the order of their lines; the same holds when the stream
    ends after the second line without a sentinel.  In general the loop
    returns normally both at the end of the stream and on a sentinel,
    whenever it returns exactly one newline is written after what it
    wrote, what a stream writes is what its first frame writes followed
    by what the rest writes, and any stream of content frames, ended
    either way, writes its fragments concatenated in the order of the
    lines and then the newline.  The whole call, on a success response
    carrying the lines of the example, returns normally and writes its
    banner line followed by that text. *)
Theorem streaming_assembles_fragments (api_key : pystr) (r : response) :
  net (chat_streaming_request api_key) = inr r ->
  (200 <= status_code r <= 299)%Z ->
  lines r = stream_AB_done \/ lines r = stream_AB_eof ->
  result (iter_lines_loop (lines r);; print [] NL false) = inr tt /\
  stdout_text (trace (iter_lines_loop (lines r);; print [] NL false))
    = py "AB" ++ NL /\
  (exists t1 t2 t3,
     trace (iter_lines_loop (lines r);; print [] NL false)
     = t1 ++ [Write (py "A"); Write []; Flush] ++ t2
          ++ [Write (py "B"); Write []; Flush] ++ t3 ++ [Write NL] /\
     stdout_text t1 = [] /\ stdout_text t2 = [] /\ stdout_text t3 = []) /\
  (forall ls, result (iter_lines_loop ls) = inr tt ->
     (iter_lines_loop ls;; print [] NL false) =
       (trace (iter_lines_loop ls) ++ [Write NL], inr tt)) /\
  iter_lines_loop [] = ([], inr tt) /\
  (forall line rest,
     startswith line (py "data: ") = true ->
     strip (removeprefix line (py "data: ")) = py "[DONE]" ->
     result (iter_lines_loop (line :: rest)) = inr tt) /\
  (forall line rest,
     startswith line (py "data: ") = true ->
     strip (removeprefix line (py "data: ")) <> py "[DONE]" ->
     result (handle_payload (removeprefix line (py "data: "))) = inr tt ->
     stdout_text (trace (iter_lines_loop (line :: rest))) =
       stdout_text (trace (handle_payload (removeprefix line (py "data: "))))
       ++ stdout_text (trace (iter_lines_loop rest))) /\
  (forall frames frags ending,
     Forall2 carries_fragment frames frags ->
     (ending = [] \/
      exists line rest, ending = line :: rest /\
        startswith line (py "data: ") = true /\
        strip (removeprefix line (py "data: ")) = py "[DONE]") ->
     result (iter_lines_loop (frames ++ ending);; print [] NL false) = inr tt /\
     stdout_text (trace (iter_lines_loop (frames ++ ending);;
                         print [] NL false))
       = concat frags ++ NL) /\
  result (chat_streaming net api_key) = inr tt /\
  stdout_text (trace (chat_streaming net api_key))
    = (NL ++ py "=== Streaming ===" ++ NL) ++ py "AB" ++ NL.
Proof.
  intros Hnet Hok Hlines.
  rewrite (chat_streaming_unfold _ _ Hnet Hok).
  split; [destruct Hlines as [-> | ->]; reflexivity|].
  split; [destruct Hlines as [-> | ->]; reflexivity|].
  split.
  { destruct Hlines as [-> | ->].
    - exists [ReadLine frame_A], [ReadLine frame_B], [ReadLine frame_done].
      repeat split; reflexivity.
    - exists [ReadLine frame_A], [ReadLine frame_B], [].
      repeat split; reflexivity. }
  split; [exact loop_then_newline|].
  split; [reflexivity|].
  split.
  { intros line rest Hd Hp. rewrite loop_sentinel; [reflexivity|].
    unfold is_sentinel, is_data_frame. rewrite Hd, Hp. reflexivity. }
  split.
  { intros line rest Hd Hns Hret.
    rewrite (loop_frame_returns _ _ Hd Hns Hret).
    cbn [trace fst stdout_text]. apply stdout_text_app. }
  split.
  { intros frames frags ending HF Hend.
    destruct (stream_concatenates _ _ _ HF Hend) as [Hr Ho].
    rewrite (loop_then_newline _ Hr). cbn [trace result fst snd].
    rewrite stdout_text_app, Ho. split; reflexivity. }
  destruct Hlines as [-> | ->]; split; reflexivity.
Qed.



End Calls.

(** ** The decoder's fuel

    Every step of the decoder consumes input, so the fuel [json_loads]
    starts with is never what makes it fail: a text that some amount of
    fuel decodes is decoded by [json_loads], to the same object. *)

Lemma skip_ws_length (s : pystr) : (length (skip_ws s) <= length s)%nat.
Proof.
  induction s as [|c s IH]; [reflexivity|].
  cbn [skip_ws]. destruct (is_json_ws c); simpl; lia.
Qed.

Lemma startswith_length (s p : pystr) :
  startswith s p = true -> (length p <= length s)%nat.
Proof.
  revert s. induction p as [|x p IH]; intros s H; [simpl; lia|].
  destruct s as [|c s]; [discriminate|].
  cbn [startswith] in H. apply andb_true_iff in H as [_ H].
  apply IH in H. simpl. lia.
Qed.

Lemma scanstring_length (n : nat) :
  forall s acc str r,
    (length s <= n)%nat ->
    scanstring s acc = Some (str, r) -> (length r < length s)%nat.
Proof.
  induction n as [|n IH]; intros s acc str r Hn H;
    (destruct s as [|c s1]; [discriminate|]); [simpl in Hn; lia|].
  cbn [scanstring] in H.
  repeat (match type of H with
          | context [match ?x with _ => _ end] => destruct x eqn:?
          end; try discriminate);
    first
      [ injection H as _ <-; simpl; lia
      | apply IH in H; simpl in *; lia ].
Qed.

Lemma span_digits_length (s ds r : pystr) :
  span_digits s = (ds, r) -> (length r <= length s)%nat.
Proof.
  revert ds r. induction s as [|c s IH]; intros ds r H.
  - injection H as _ <-. reflexivity.
  - cbn [span_digits] in H. destruct (is_digit c).
    + destruct (span_digits s) as [ds' r'] eqn:E. injection H as _ <-.
      specialize (IH _ _ eq_refl). simpl. lia.
    + injection H as _ <-. reflexivity.
Qed.

Lemma scan_int_part_length (s ids r : pystr) :
  scan_int_part s = Some (ids, r) -> (length r < length s)%nat.
Proof.
  unfold scan_int_part. destruct s as [|c s]; [discriminate|].
  destruct (c =? 48); [intros [= _ <-]; simpl; lia|].
  destruct (is_digit c); [|discriminate].
  destruct (span_digits s) as [ds r'] eqn:E. intros [= _ <-].
  apply span_digits_length in E. simpl. lia.
Qed.

Lemma scan_frac_length (s fds r : pystr) :
  scan_frac s = (fds, r) -> (length r <= length s)%nat.
Proof.
  unfold scan_frac. destruct s as [|p [|d s]]; try (intros [= _ <-]; reflexivity).
  destruct ((p =? 46) && is_digit d); [|intros [= _ <-]; reflexivity].
  intros H. apply span_digits_length in H. simpl in *. lia.
Qed.

Lemma scan_exp_length (s r : pystr) (ex : option Z) :
  scan_exp s = (ex, r) -> (length r <= length s)%nat.
Proof.
  unfold scan_exp. destruct s as [|e s]; [intros [= _ <-]; reflexivity|].
  destruct ((e =? 101) || (e =? 69)); [|intros [= _ <-]; reflexivity].
  destruct (match s with
            | [] => (false, s)
            | sgn :: r'' =>
                if sgn =? 45 then (true, r'')
                else if sgn =? 43 then (false, r'') else (false, s)
            end) as [eneg r'] eqn:Es.
  assert (Hr' : (length r' <= length s)%nat).
  { destruct s as [|sgn s']; [injection Es as _ <-; reflexivity|].
    destruct (sgn =? 45); [injection Es as _ <-; simpl; lia|].
    destruct (sgn =? 43); injection Es as _ <-; simpl; lia. }
  destruct (span_digits r') as [eds r''] eqn:Ed.
  apply span_digits_length in Ed.
  destruct eds; intros [= _ <-]; simpl; lia.
Qed.

Lemma match_number_length (s r : pystr) (v : value) :
  match_number s = Some (v, r) -> (length r < length s)%nat.
Proof.
  unfold match_number.
  destruct (match s with
            | [] => (false, s)
            | c :: s' => if c =? 45 then (true, s') else (false, s)
            end) as [neg s1] eqn:Es.
  assert (Hs1 : (length s1 <= length s)%nat).
  { destruct s as [|c s']; [injection Es as _ <-; reflexivity|].
    destruct (c =? 45); injection Es as _ <-; simpl; lia. }
  destruct (scan_int_part s1) as [[ids r1]|] eqn:Ei; [|discriminate].
  apply scan_int_part_length in Ei.
  destruct (scan_frac r1) as [fds r2] eqn:Ef. apply scan_frac_length in Ef.
  destruct (scan_exp r2) as [ex r3] eqn:Ee. apply scan_exp_length in Ee.
  destruct fds, ex; intros [= _ <-]; lia.
Qed.

Lemma scan_once_enough_step (f : nat) :
  enough_object f -> enough_array f -> enough_scan (S f).
Proof.
  intros HO HA s x H.
  destruct s as [|c s']; [discriminate|].
  cbn [scan_once] in H.
  destruct (c =? 34) eqn:E34.
  { destruct (scanstring s' []) as [[str r]|] eqn:Es; [|discriminate].
    injection H as <-. split.
    - apply (scanstring_length _ _ _ _ _ (le_n _)) in Es. simpl. lia.
    - intros g _. cbn [scan_once]. rewrite E34, Es. reflexivity. }
  destruct (c =? 123) eqn:E123.
  { destruct (skip_ws s') as [|c1 r1] eqn:Ew; [discriminate|].
    pose proof (skip_ws_length s') as Hw. rewrite Ew in Hw.
    destruct (c1 =? 125) eqn:E125.
    - injection H as <-. split; [simpl in *; lia|].
      intros g _. cbn [scan_once]. rewrite E34, E123, Ew, E125. reflexivity.
    - destruct (HO _ _ _ H) as [Hl Hg]. split; [simpl in *; lia|].
      intros g Hb. cbn [scan_once]. rewrite E34, E123, Ew, E125.
      destruct g as [|g]; [simpl in Hb; lia|].
      apply Hg. simpl in *. lia. }
  destruct (c =? 91) eqn:E91.
  { destruct (skip_ws s') as [|c1 r1] eqn:Ew; [discriminate|].
    pose proof (skip_ws_length s') as Hw. rewrite Ew in Hw.
    destruct (c1 =? 93) eqn:E93.
    - injection H as <-. split; [simpl in *; lia|].
      intros g _. cbn [scan_once]. rewrite E34, E123, E91, Ew, E93.
      reflexivity.
    - destruct (HA _ _ _ H) as [Hl Hg]. split; [simpl in *; lia|].
      intros g Hb. cbn [scan_once]. rewrite E34, E123, E91, Ew, E93.
      destruct g as [|g]; [simpl in Hb; lia|].
      apply Hg. simpl in *. lia. }
  assert (Hrest : forall g, scan_once (S g) (c :: s') = Some x).
  { intros g. cbn [scan_once]. rewrite E34, E123, E91. exact H. }
  split; [|intros g _; apply Hrest].
  repeat (match type of H with
          | context [if startswith ?a ?b then _ else _] =>
              let E := fresh "E" in
              destruct (startswith a b) eqn:E;
              [apply startswith_length in E; injection H as <-;
               cbn [snd]; rewrite length_drop; simpl in *; lia|]
          end).
  destruct x as [v r]. apply match_number_length in H. exact H.
Qed.

Lemma parse_object_enough_step (f : nat) :
  enough_scan f -> enough_object f -> enough_object (S f).
Proof.
  intros HS HO s acc x H.
  destruct s as [|q s1]; [discriminate|].
  cbn [parse_object] in H.
  destruct (q =? 34) eqn:Eq; [|discriminate].
  destruct (scanstring s1 []) as [[key r]|] eqn:Ek; [|discriminate].
  pose proof (scanstring_length _ _ _ _ _ (le_n _) Ek) as Lk.
  destruct (skip_ws r) as [|c2 r2] eqn:Ew; [discriminate|].
  pose proof (skip_ws_length r) as Lw. rewrite Ew in Lw.
  destruct (c2 =? 58) eqn:Ec; [|discriminate].
  destruct (scan_once f (skip_ws r2)) as [[v r3]|] eqn:Ev; [|discriminate].
  destruct (HS _ _ Ev) as [Lv Gv]. cbn [snd] in Lv.
  pose proof (skip_ws_length r2) as Lw2.
  destruct (skip_ws r3) as [|c3 r4] eqn:Ew3; [discriminate|].
  pose proof (skip_ws_length r3) as Lw3. rewrite Ew3 in Lw3.
  pose proof (skip_ws_length r4) as Lw4.
  assert (Hhead : forall g, (2 * length (q :: s1) + 1 <= g)%nat ->
            parse_object (S g) (q :: s1) acc =
            (if c3 =? 125 then Some (VDict (dict_set acc key v), r4)
             else if c3 =? 44
                  then parse_object g (skip_ws r4) (dict_set acc key v)
                  else None)).
  { intros g Hb. cbn [parse_object]. rewrite Eq, Ek, Ew, Ec.
    destruct g as [|g]; [simpl in Hb; lia|].
    rewrite Gv by (simpl in *; lia). rewrite Ew3. reflexivity. }
  destruct (c3 =? 125) eqn:E125.
  { injection H as <-. split; [simpl in *; lia|]. exact Hhead. }
  destruct (c3 =? 44) eqn:E44; [|discriminate].
  destruct (HO _ _ _ H) as [Lo Go]. split; [simpl in *; lia|].
  intros g Hb. rewrite (Hhead g Hb).
  destruct g as [|g]; [simpl in Hb; lia|].
  apply Go. simpl in *. lia.
Qed.

Lemma parse_array_enough_step (f : nat) :
  enough_scan f -> enough_array f -> enough_array (S f).
Proof.
  intros HS HA s acc x H.
  cbn [parse_array] in H.
  destruct (scan_once f s) as [[v r]|] eqn:Ev; [|discriminate].
  destruct (HS _ _ Ev) as [Lv Gv]. cbn [snd] in Lv.
  destruct (skip_ws r) as [|c r1] eqn:Ew; [discriminate|].
  pose proof (skip_ws_length r) as Lw. rewrite Ew in Lw.
  pose proof (skip_ws_length r1) as Lw1.
  assert (Hhead : forall g, (2 * length s + 1 <= g)%nat ->
            parse_array (S g) s acc =
            (if c =? 93 then Some (VList (rev (v :: acc)), r1)
             else if c =? 44 then parse_array g (skip_ws r1) (v :: acc)
                  else None)).
  { intros g Hb. cbn [parse_array].
    destruct g as [|g]; [lia|].
    rewrite Gv by lia. rewrite Ew. reflexivity. }
  destruct (c =? 93) eqn:E93.
  { injection H as <-. split; [simpl in *; lia|]. exact Hhead. }
  destruct (c =? 44) eqn:E44; [|discriminate].
  destruct (HA _ _ _ H) as [La Ga]. split; [simpl in *; lia|].
  intros g Hb. rewrite (Hhead g Hb).
  destruct g as [|g]; [lia|].
  apply Ga. simpl in *. lia.
Qed.

Lemma fuel_enough (f : nat) :
  enough_scan f /\ enough_object f /\ enough_array f.
Proof.
  induction f as [|f (HS & HO & HA)].
  - split; [|split]; [intros s x H | intros s acc x H | intros s acc x H];
      discriminate H.
  - split; [|split].
    + apply scan_once_enough_step; assumption.
    + apply parse_object_enough_step; assumption.
    + apply parse_array_enough_step; assumption.
Qed.

(** A text that the decoder accepts with some fuel is accepted by
    [json_loads], with the same result: [json_loads] fails on malformed
    texts only. *)
Lemma json_loads_fuel_enough (f : nat) (s r : pystr) (v : value) :
  scan_once f (skip_ws s) = Some (v, r) ->
  skip_ws r = [] ->
  json_loads s = Some v.
Proof.
  intros H Hr. unfold json_loads.
  destruct (fuel_enough f) as (HS & _ & _).
  destruct (HS _ _ H) as [_ Hg].
  pose proof (skip_ws_length s) as Lw.
  replace (2 * length s + 2)%nat with (S (2 * length s + 1)) by lia.
  rewrite Hg by lia. rewrite Hr. reflexivity.
Qed.

(** ** Decoding what [json.dumps] wrote *)

Lemma hex_value_hex_digit (d : N) :
  d < 16 -> hex_value (hex_digit d) = Some d.
Proof.
  intros H. destruct d as [|p]; [reflexivity|].
  do 4 (try destruct p as [p|p|]); try reflexivity; lia.
Qed.

Lemma hex4_digits (n : N) :
  n < 65536 ->
  hex4 (hex_digit (n / 4096 mod 16)) (hex_digit (n / 256 mod 16))
       (hex_digit (n / 16 mod 16)) (hex_digit (n mod 16)) = Some n.
Proof.
  intros H. unfold hex4.
  rewrite !hex_value_hex_digit by (apply N.mod_lt; discriminate).
  f_equal.
  assert (E1 : n / 256 = n / 16 / 16) by (rewrite N.Div0.div_div; reflexivity).
  assert (E2 : n / 4096 = n / 16 / 16 / 16)
    by (rewrite !N.Div0.div_div; reflexivity).
  rewrite E1, E2. clear E1 E2.
  pose proof (N.div_mod' n 16). pose proof (N.div_mod' (n / 16) 16).
  pose proof (N.div_mod' (n / 16 / 16) 16).
  pose proof (N.div_mod' (n / 16 / 16 / 16) 16).
  pose proof (N.mod_lt n 16). pose proof (N.mod_lt (n / 16) 16).
  pose proof (N.mod_lt (n / 16 / 16) 16).
  pose proof (N.mod_lt (n / 16 / 16 / 16) 16).
  generalize dependent (n / 16 / 16 / 16 mod 16).
  generalize dependent (n / 16 / 16 mod 16).
  generalize dependent (n / 16 mod 16).
  generalize dependent (n mod 16).
  generalize dependent (n / 16 / 16 / 16 / 16).
  generalize dependent (n / 16 / 16 / 16).
  generalize dependent (n / 16 / 16).
  generalize dependent (n / 16).
  intros. lia.
Qed.

(** The equations of [scanstring], one per kind of character. *)

Lemma scanstring_quote (s acc : pystr) :
  scanstring (34 :: s) acc = Some (rev acc, s).
Proof. reflexivity. Qed.

Lemma scanstring_plain (c : N) (s acc : pystr) :
  c <> 34 -> c <> 92 -> 32 <= c ->
  scanstring (c :: s) acc = scanstring s (c :: acc).
Proof.
  intros H1 H2 H3. cbn [scanstring].
  apply N.eqb_neq in H1, H2. rewrite H1, H2.
  assert (E : (c <? 32) = false) by (apply N.ltb_ge; exact H3).
  rewrite E. reflexivity.
Qed.

Lemma scanstring_short (e x : N) (s acc : pystr) :
  e <> 117 -> unescape e = Some x ->
  scanstring (92 :: e :: s) acc = scanstring s (x :: acc).
Proof.
  intros H1 H2. cbn [scanstring].
  change (92 =? 34) with false. change (92 =? 92) with true. cbv iota.
  apply N.eqb_neq in H1. rewrite H1, H2. reflexivity.
Qed.

Lemma scanstring_pair (a b c d a2 b2 c2 d2 u u2 : N) (s acc : pystr) :
  hex4 a b c d = Some u -> is_high_surrogate u = true ->
  hex4 a2 b2 c2 d2 = Some u2 -> is_low_surrogate u2 = true ->
  scanstring (92 :: 117 :: a :: b :: c :: d ::
              92 :: 117 :: a2 :: b2 :: c2 :: d2 :: s) acc
  = scanstring s (join_surrogates u u2 :: acc).
Proof.
  intros H1 H2 H3 H4. cbn [scanstring].
  change (92 =? 34) with false. change (92 =? 92) with true.
  change (117 =? 117) with true. cbv iota.
  rewrite H1, H2. cbn [andb]. rewrite H3, H4. reflexivity.
Qed.

Lemma scanstring_u (a b c d u : N) (s acc : pystr) :
  hex4 a b c d = Some u ->
  (is_high_surrogate u = true ->
   forall a2 b2 c2 d2 s4,
     s = 92 :: 117 :: a2 :: b2 :: c2 :: d2 :: s4 ->
     exists u2, hex4 a2 b2 c2 d2 = Some u2 /\ is_low_surrogate u2 = false) ->
  scanstring (92 :: 117 :: a :: b :: c :: d :: s) acc
  = scanstring s (u :: acc).
Proof.
  intros H1 Hs. cbn [scanstring].
  change (92 =? 34) with false. change (92 =? 92) with true.
  change (117 =? 117) with true. cbv iota.
  rewrite H1. destruct (is_high_surrogate u); [|reflexivity].
  specialize (Hs eq_refl).
  destruct s as [|x1 [|x2 [|a2 [|b2 [|c2 [|d2 s4]]]]]]; try reflexivity.
  destruct (x1 =? 92) eqn:E1; [|reflexivity].
  destruct (x2 =? 117) eqn:E2; [|reflexivity].
  apply N.eqb_eq in E1, E2. subst x1 x2. cbn [andb].
  destruct (Hs _ _ _ _ _ eq_refl) as (u2 & -> & ->). reflexivity.
Qed.

(** What an escaped character can look like from the left: if it starts
    with an escape in four hexadecimal digits, these digits do not spell a
    low surrogate unless the character is one. *)
Lemma escape_char_head (y a2 b2 c2 d2 : N) (T s4 : pystr) :
  y <= max_code_point ->
  is_low_surrogate y = false ->
  escape_char y ++ T = 92 :: 117 :: a2 :: b2 :: c2 :: d2 :: s4 ->
  exists u2, hex4 a2 b2 c2 d2 = Some u2 /\ is_low_surrogate u2 = false.
Proof.
  unfold max_code_point, escape_char. intros Hmax Hlow.
  repeat (match goal with
          | |- context [if ?c =? ?k then _ else _] =>
              destruct (c =? k) eqn:?; [simpl; discriminate|]
          end).
  destruct ((32 <=? y) && (y <=? 126)) eqn:Hp.
  { simpl. intros [= ->]. discriminate. }
  destruct (y <? 65536) eqn:Hs.
  - apply N.ltb_lt in Hs. simpl. intros [= <- <- <- <- _].
    exists y. split; [apply hex4_digits, Hs | exact Hlow].
  - apply N.ltb_ge in Hs. cbv zeta. simpl. intros [= <- <- <- <- _].
    assert (Hq : (y - 65536) / 1024 < 1024).
    { apply N.Div0.div_lt_upper_bound. lia. }
    exists (55296 + (y - 65536) / 1024). split.
    + apply hex4_digits. lia.
    + unfold is_low_surrogate. apply andb_false_iff. left.
      apply N.leb_gt. lia.
Qed.

(** One escaped character is read back as the character it stands for,
    provided an escaped high surrogate is not followed by an escaped low
    one. *)
Lemma scanstring_escape_char (x : N) (T acc : pystr) :
  x <= max_code_point ->
  (is_high_surrogate x = true ->
   forall a2 b2 c2 d2 s4,
     T = 92 :: 117 :: a2 :: b2 :: c2 :: d2 :: s4 ->
     exists u2, hex4 a2 b2 c2 d2 = Some u2 /\ is_low_surrogate u2 = false) ->
  scanstring (escape_char x ++ T) acc = scanstring T (x :: acc).
Proof.
  unfold max_code_point, escape_char. intros Hmax HT.
  repeat (match goal with
          | |- context [if ?c =? ?k then _ else _] =>
              let E := fresh "E" in
              destruct (c =? k) eqn:E;
              [apply N.eqb_eq in E; subst; reflexivity | apply N.eqb_neq in E]
          end).
  destruct ((32 <=? x) && (x <=? 126)) eqn:Hp.
  { apply andb_true_iff in Hp as [Hp _]. apply N.leb_le in Hp.
    apply scanstring_plain; assumption. }
  destruct (x <? 65536) eqn:Hs.
  - apply N.ltb_lt in Hs.
    apply (scanstring_u _ _ _ _ x); [apply hex4_digits, Hs | exact HT].
  - apply N.ltb_ge in Hs. cbv zeta.
    assert (Hq : (x - 65536) / 1024 < 1024).
    { apply N.Div0.div_lt_upper_bound. lia. }
    assert (Hr : (x - 65536) mod 1024 < 1024) by (apply N.mod_lt; discriminate).
    pose proof (N.div_mod' (x - 65536) 1024) as Hx.
    set (q := (x - 65536) / 1024) in *.
    set (r := (x - 65536) mod 1024) in *. clearbody q r.
    set (hi := 55296 + q) in *.
    set (lo := 56320 + r) in *.
    assert (Ej : join_surrogates hi lo = x).
    { unfold join_surrogates, hi, lo. lia. }
    transitivity (scanstring T (join_surrogates hi lo :: acc));
      [|rewrite Ej; reflexivity].
    unfold escape_u. simpl app.
    apply scanstring_pair.
    + apply hex4_digits. unfold hi. lia.
    + unfold is_high_surrogate, hi. apply andb_true_iff.
      split; apply N.leb_le; lia.
    + apply hex4_digits. unfold lo. lia.
    + unfold is_low_surrogate, lo. apply andb_true_iff.
      split; apply N.leb_le; lia.
Qed.

(** A string written by the encoder is read back by the decoder. *)
Lemma scanstring_escaped (s acc rest : pystr) :
  pair_free s = true ->
  scanstring (concat (map escape_char s) ++ 34 :: rest) acc
  = Some (rev acc ++ s, rest).
Proof.
  revert acc. induction s as [|x s IH]; intros acc Hs.
  - simpl. rewrite app_nil_r. reflexivity.
  - cbn [pair_free] in Hs.
    apply andb_true_iff in Hs as [Hs Hrec].
    apply andb_true_iff in Hs as [Hmax Hpair].
    apply N.leb_le in Hmax. apply negb_true_iff in Hpair.
    cbn [map concat]. rewrite <- app_assoc.
    rewrite scanstring_escape_char; [| exact Hmax |].
    + rewrite (IH _ Hrec). cbn [rev]. rewrite <- app_assoc. reflexivity.
    + intros Hhigh a2 b2 c2 d2 s4. rewrite Hhigh in Hpair. cbn [andb] in Hpair.
      destruct s as [|y s']; [simpl; discriminate|].
      cbn [map concat]. rewrite <- app_assoc.
      cbn [pair_free] in Hrec.
      apply andb_true_iff in Hrec as [Hrec _].
      apply andb_true_iff in Hrec as [Hy _]. apply N.leb_le in Hy.
      apply escape_char_head; assumption.
Qed.

Section Header.
Context {rt : PyRuntime}.

(** The header value is a fixed text around the escaped credential. *)
Lemma header_text (c : pystr) :
  json_dumps (VDict [
    (py "passthrough_api_key", VStr c);
    (py "passthrough_url", VStr (py "https://api.openai.com")) ])
  = pyq "{'passthrough_api_key': '"
    ++ concat (map escape_char c)
    ++ 34 :: pyq ", 'passthrough_url': 'https://api.openai.com'}".
Proof.
  cbn [json_dumps]. unfold escape_string.
  change (concat (map escape_char (py "passthrough_api_key")))
    with (py "passthrough_api_key").
  change (concat (map escape_char (py "passthrough_url")))
    with (py "passthrough_url").
  change (concat (map escape_char (py "https://api.openai.com")))
    with (py "https://api.openai.com").
  rewrite <- !app_assoc. reflexivity.
Qed.

Lemma scan_once_string (f : nat) (s str r : pystr) :
  scanstring s [] = Some (str, r) ->
  scan_once (S f) (34 :: s) = Some (VStr str, r).
Proof. intros H. cbn [scan_once]. change (34 =? 34) with true. cbv iota. rewrite H. reflexivity. Qed.

Lemma scan_once_object (f : nat) (s' r1 : pystr) (c1 : N) :
  skip_ws s' = c1 :: r1 -> c1 <> 125 ->
  scan_once (S f) (123 :: s') = parse_object f (c1 :: r1) [].
Proof.
  intros H1 H2. cbn [scan_once].
  change (123 =? 34) with false. change (123 =? 123) with true. cbv iota.
  rewrite H1. apply N.eqb_neq in H2. rewrite H2. reflexivity.
Qed.

Lemma parse_object_entry (f : nat) (s1 key r r2 r3 : pystr) (v : value)
    (acc : list (pystr * value)) :
  scanstring s1 [] = Some (key, r) ->
  skip_ws r = 58 :: r2 ->
  scan_once f (skip_ws r2) = Some (v, r3) ->
  parse_object (S f) (34 :: s1) acc =
  match skip_ws r3 with
  | [] => None
  | c3 :: r4 =>
      if c3 =? 125 then Some (VDict (dict_set acc key v), r4)
      else if c3 =? 44 then parse_object f (skip_ws r4) (dict_set acc key v)
      else None
  end.
Proof.
  intros H1 H2 H3. cbn [parse_object].
  change (34 =? 34) with true. cbv iota. rewrite H1, H2.
  change (58 =? 58) with true. cbv iota. rewrite H3. reflexivity.
Qed.

(** The decoder on the header text, for any fuel it can start with. *)
Lemma scan_header (f : nat) (c : pystr) :
  pair_free c = true ->
  scan_once (4 + f)
    (pyq "{'passthrough_api_key': '"
     ++ concat (map escape_char c)
     ++ 34 :: pyq ", 'passthrough_url': 'https://api.openai.com'}")
  = Some (VDict [
      (py "passthrough_api_key", VStr c);
      (py "passthrough_url", VStr (py "https://api.openai.com")) ], []).
Proof.
  intros Hc.
  set (K1 := py "passthrough_api_key").
  set (K2 := py "passthrough_url").
  set (U := py "https://api.openai.com").
  set (T3 := concat (map escape_char U) ++ 34 :: [125]).
  set (T2 := concat (map escape_char K2) ++ 34 :: 58 :: 32 :: 34 :: T3).
  set (T1 := concat (map escape_char c) ++ 34 :: 44 :: 32 :: 34 :: T2).
  set (T0 := concat (map escape_char K1) ++ 34 :: 58 :: 32 :: 34 :: T1).
  change (scan_once (S (S (S (S f)))) (123 :: 34 :: T0)
          = Some (VDict [(K1, VStr c); (K2, VStr U)], [])).
  assert (S3 : scanstring T3 [] = Some (U, [125])).
  { apply (scanstring_escaped U [] [125]). reflexivity. }
  assert (S2 : scanstring T2 [] = Some (K2, 58 :: 32 :: 34 :: T3)).
  { apply (scanstring_escaped K2 [] (58 :: 32 :: 34 :: T3)). reflexivity. }
  assert (S1 : scanstring T1 [] = Some (c, 44 :: 32 :: 34 :: T2)).
  { apply (scanstring_escaped c [] (44 :: 32 :: 34 :: T2)). exact Hc. }
  assert (S0 : scanstring T0 [] = Some (K1, 58 :: 32 :: 34 :: T1)).
  { apply (scanstring_escaped K1 [] (58 :: 32 :: 34 :: T1)). reflexivity. }
  rewrite (scan_once_object _ (34 :: T0) T0 34 eq_refl); [|discriminate].
  rewrite (parse_object_entry _ T0 K1 _ (32 :: 34 :: T1) (44 :: 32 :: 34 :: T2)
             (VStr c) [] S0 eq_refl (scan_once_string _ _ _ _ S1)).
  change (skip_ws (44 :: 32 :: 34 :: T2)) with (44 :: 32 :: 34 :: T2).
  change (44 =? 125) with false. change (44 =? 44) with true. cbv iota.
  change (skip_ws (32 :: 34 :: T2)) with (34 :: T2).
  rewrite (parse_object_entry _ T2 K2 _ (32 :: 34 :: T3) [125]
             (VStr U) _ S2 eq_refl (scan_once_string _ _ _ _ S3)).
  reflexivity.
Qed.

Lemma loads_header (c : pystr) :
  pair_free c = true ->
  json_loads
    (pyq "{'passthrough_api_key': '"
     ++ concat (map escape_char c)
     ++ 34 :: pyq ", 'passthrough_url': 'https://api.openai.com'}")
  = Some (VDict [
      (py "passthrough_api_key", VStr c);
      (py "passthrough_url", VStr (py "https://api.openai.com")) ]).
Proof.
  intros Hc. unfold json_loads.
  set (s := pyq "{'passthrough_api_key': '" ++ _).
  assert (Hf : exists f, (2 * length s + 2 = 4 + f)%nat).
  { exists (2 * length s - 2)%nat. subst s. rewrite length_app. 
    change (length (pyq "{'passthrough_api_key': '")) with 25%nat. lia. }
  destruct Hf as [f ->].
  change (skip_ws s) with s. subst s.
  rewrite (scan_header f c Hc). reflexivity.
Qed.

(** C4, as amended: for every credential in which no high surrogate stands
    directly before a low surrogate (every credential that has an
    encoding, the empty string included) the builder returns a mapping
    with the custom header as its only entry; the value of that entry is a
    JSON text that decodes to an object with exactly two entries, the
    credential, identical to the one supplied, and the fixed target URL.
    The builder is total: nothing is checked and nothing is rejected. *)
Theorem header_carries_credential (c : pystr) :
  pair_free c = true ->
  exists v : pystr,
    provider_data_header c = {[ py "X-LlamaStack-Provider-Data" := v ]} /\
    size (provider_data_header c) = 1%nat /\
    json_loads v = Some (VDict [
      (py "passthrough_api_key", VStr c);
      (py "passthrough_url", VStr (py "https://api.openai.com")) ]).
Proof.
  intros Hc. unfold provider_data_header. eexists. split; [reflexivity|].
  split; [apply map_size_singleton|].
  rewrite header_text. apply loads_header, Hc.
Qed.

End Header.

(** Strings without a high surrogate, such as well-formed Unicode text and
    the values of environment variables, are [pair_free]. *)
Lemma no_high_surrogate_pair_free (s : pystr) :
  Forall (fun c => c <= max_code_point /\ is_high_surrogate c = false) s ->
  pair_free s = true.
Proof.
  induction 1 as [|c s [Hmax Hhigh] _ IH]; [reflexivity|].
  cbn [pair_free]. rewrite Hhigh, IH. apply N.leb_le in Hmax.
  rewrite Hmax. reflexivity.
Qed.

(** Outside that domain the JSON text still decodes, to a different
    string: a high surrogate followed by a low one is read back as the one
    code point the pair spells. *)
Example surrogate_pair_joined :
  json_loads (json_dumps (rt := sample_runtime) (VStr [0xD83D; 0xDE00]))
  = Some (VStr [0x1F600]).
Proof. reflexivity. Qed.

(** * Further properties of the script *)

(** ** The read loop over a whole stream *)

Lemma startswith_prefix (s p : pystr) :
  startswith s p = true -> p ++ drop (length p) s = s.
Proof.
  revert s. induction p as [|x p IH]; intros s H; [reflexivity|].
  destruct s as [|c s]; [discriminate|].
  cbn [startswith] in H. apply andb_true_iff in H as [Hc H].
  apply N.eqb_eq in Hc. subst x. simpl. rewrite (IH _ H). reflexivity.
Qed.

(** X1: the payload of a data frame is the line without its marker: putting
    the six characters back in front of the payload gives the line. *)
Theorem payload_restores_line (line : pystr) :
  startswith line (py "data: ") = true ->
  py "data: " ++ removeprefix line (py "data: ") = line /\
  (length (removeprefix line (py "data: ")) + 6 = length line)%nat.
Proof.
  intros H. unfold removeprefix. rewrite H.
  pose proof (startswith_prefix _ _ H) as E. split; [exact E|].
  rewrite <- E at 2. rewrite length_app. simpl. lia.
Qed.

Lemma startswith_app_self (p s : pystr) : startswith (p ++ s) p = true.
Proof.
  induction p as [|x p IH]; [destruct s; reflexivity|].
  simpl. rewrite N.eqb_refl. exact IH.
Qed.

Lemma removeprefix_app (p s : pystr) : removeprefix (p ++ s) p = s.
Proof.
  unfold removeprefix. rewrite startswith_app_self. apply drop_app_length.
Qed.

Lemma lstrip_spaces (ws s : pystr) :
  Forall (fun c => isspace c = true) ws -> lstrip (ws ++ s) = lstrip s.
Proof.
  induction 1 as [|c ws Hc _ IH]; [reflexivity|].
  simpl app. cbn [lstrip]. rewrite Hc. exact IH.
Qed.

Lemma lstrip_nonspace (c : N) (s : pystr) :
  isspace c = false -> lstrip (c :: s) = c :: s.
Proof. intros H. cbn [lstrip]. rewrite H. reflexivity. Qed.

(** [strip] removes the white space around a text that starts and ends
    with a character that is not white space. *)
Lemma strip_padded (ws1 ws2 mid : pystr) (a z : N) :
  Forall (fun c => isspace c = true) ws1 ->
  Forall (fun c => isspace c = true) ws2 ->
  isspace a = false -> isspace z = false ->
  strip (ws1 ++ (a :: mid ++ [z]) ++ ws2) = a :: mid ++ [z].
Proof.
  intros H1 H2 Ha Hz. unfold strip, rstrip.
  rewrite (lstrip_spaces _ _ H1).
  change ((a :: mid ++ [z]) ++ ws2) with (a :: (mid ++ [z]) ++ ws2).
  rewrite (lstrip_nonspace _ _ Ha).
  replace (rev (a :: (mid ++ [z]) ++ ws2))
    with (rev ws2 ++ z :: rev mid ++ [a]).
  2:{ change (a :: (mid ++ [z]) ++ ws2) with ((a :: mid ++ [z]) ++ ws2).
      rewrite rev_app_distr. f_equal. simpl. rewrite rev_app_distr.
      reflexivity. }
  rewrite lstrip_spaces by (apply Forall_rev; exact H2).
  rewrite (lstrip_nonspace _ _ Hz).
  simpl rev. rewrite rev_app_distr, rev_involutive. reflexivity.
Qed.

Section WholeStream.
Context {rt : PyRuntime}.

(** X2: white space around the token does not hide the sentinel: a data
    frame whose payload is [[DONE]] with any white space before and after
    it (a trailing carriage return, for instance) ends the loop. *)
Theorem padded_sentinel_stops (ws1 ws2 : pystr) (rest : list pystr) :
  Forall (fun c => isspace c = true) ws1 ->
  Forall (fun c => isspace c = true) ws2 ->
  iter_lines_loop ((py "data: " ++ ws1 ++ py "[DONE]" ++ ws2) :: rest)
  = ([ReadLine (py "data: " ++ ws1 ++ py "[DONE]" ++ ws2)], inr tt).
Proof.
  intros H1 H2. apply loop_sentinel.
  unfold is_sentinel, is_data_frame.
  rewrite startswith_app_self, removeprefix_app.
  change (ws1 ++ py "[DONE]" ++ ws2)
    with (ws1 ++ (91 :: py "DONE" ++ [93]) ++ ws2).
  rewrite (strip_padded ws1 ws2 (py "DONE") 91 93 H1 H2 eq_refl eq_refl).
  reflexivity.
Qed.

Lemma frame_not_sentinel (line : pystr) :
  is_data_frame line = true -> is_sentinel line = false ->
  strip (removeprefix line (py "data: ")) <> py "[DONE]".
Proof.
  unfold is_sentinel. intros -> H E. simpl in H.
  apply pystr_eqb_eq in E. congruence.
Qed.

(** The loop over a first part that neither stops nor raises, followed by
    anything. *)
Lemma loop_app (pre rest : list pystr) :
  Forall (fun l => is_sentinel l = false) pre ->
  result (iter_lines_loop pre) = inr tt ->
  iter_lines_loop (pre ++ rest) =
    (trace (iter_lines_loop pre) ++ trace (iter_lines_loop rest),
     result (iter_lines_loop rest)).
Proof.
  induction 1 as [|l pre Hl _ IH]; intros Hret.
  - simpl. apply M_eta.
  - change ((l :: pre) ++ rest) with (l :: (pre ++ rest)).
    destruct (is_data_frame l) eqn:Hd.
    + pose proof (frame_not_sentinel _ Hd Hl) as Hns.
      rewrite (loop_frame _ _ Hd Hl), bind_tell in Hret.
      cbn [result snd] in Hret. rewrite result_bind in Hret.
      destruct (result (handle_payload (removeprefix l (py "data: "))))
        as [e|[]] eqn:Hh; [discriminate|].
      rewrite (loop_frame_returns l (pre ++ rest) Hd Hns Hh).
      rewrite (loop_frame_returns l pre Hd Hns Hh), (IH Hret).
      cbn [trace result fst snd]. rewrite app_comm_cons, app_assoc.
      reflexivity.
    + rewrite !(loop_skip _ _ Hd) in *. cbn [result snd] in Hret.
      rewrite (IH Hret). reflexivity.
Qed.

(** X3: the loop treats a stream part by part.  When a first part holds no
    sentinel and is handled without an exception, the loop over that part
    followed by any continuation does what it does on the part and then
    what it does on the continuation. *)
Theorem loop_over_concatenation (pre rest : list pystr) :
  Forall (fun l => is_sentinel l = false) pre ->
  result (iter_lines_loop pre) = inr tt ->
  iter_lines_loop (pre ++ rest) =
    (trace (iter_lines_loop pre) ++ trace (iter_lines_loop rest),
     result (iter_lines_loop rest)) /\
  stdout_text (trace (iter_lines_loop (pre ++ rest))) =
    stdout_text (trace (iter_lines_loop pre))
    ++ stdout_text (trace (iter_lines_loop rest)).
Proof.
  intros Hs Hret. rewrite (loop_app _ _ Hs Hret).
  split; [reflexivity|]. apply stdout_text_app.
Qed.

(** X4: the loop never gives up on its own: when no line is a sentinel and no
    frame raises, every line of the stream is read, in order. *)
Theorem loop_reads_whole_stream (ls : list pystr) :
  Forall (fun l => is_sentinel l = false) ls ->
  result (iter_lines_loop ls) = inr tt ->
  lines_read (trace (iter_lines_loop ls)) = ls.
Proof.
  induction 1 as [|l ls Hl _ IH]; intros Hret; [reflexivity|].
  destruct (is_data_frame l) eqn:Hd.
  - pose proof (frame_not_sentinel _ Hd Hl) as Hns.
    rewrite (loop_frame _ _ Hd Hl), bind_tell in Hret.
    cbn [result snd] in Hret. rewrite result_bind in Hret.
    destruct (result (handle_payload (removeprefix l (py "data: "))))
      as [e|[]] eqn:Hh; [discriminate|].
    rewrite (loop_frame_returns _ _ Hd Hns Hh).
    cbn [trace fst lines_read]. rewrite lines_read_app.
    rewrite handle_payload_reads_nothing, (IH Hret). reflexivity.
  - rewrite (loop_skip _ _ Hd) in *. cbn [result snd] in Hret.
    cbn [trace fst lines_read]. rewrite (IH Hret). reflexivity.
Qed.

(** X5: the log of the loop is a sequence of blocks, one per line read:
    the read alone, or the read followed by one fragment, the empty end
    string and a flush.  So every fragment is flushed before the next line
    is read, and nothing the loop writes is left unflushed. *)
Theorem loop_flushes_every_fragment (ls : list pystr) :
  exists blocks : list (list effect),
    trace (iter_lines_loop ls) = concat blocks /\
    Forall loop_block blocks /\
    (length blocks <= length ls)%nat.
Proof.
  induction ls as [|l ls (blocks & E & HB & HL)].
  - exists []. repeat split; [constructor | reflexivity].
  - destruct (is_data_frame l) eqn:Hd.
    + destruct (is_sentinel l) eqn:Hs.
      * rewrite (loop_sentinel _ _ Hs). exists [[ReadLine l]].
        repeat split; [|simpl; lia].
        constructor; [|constructor]. exists l. left. reflexivity.
      * rewrite (loop_frame _ _ Hd Hs), bind_tell. cbn [trace fst].
        destruct (handle_payload_cases (removeprefix l (py "data: ")))
          as [[e Eh] | [Eh | [v [_ Eh]]]]; rewrite Eh.
        -- exists [[ReadLine l]]. repeat split; [|simpl; lia].
           constructor; [|constructor]. exists l. left. reflexivity.
        -- exists ([ReadLine l] :: blocks). rewrite bind_logged.
           cbn [trace fst app concat]. rewrite E.
           repeat split; [|simpl; lia].
           constructor; [|exact HB]. exists l. left. reflexivity.
        -- exists ([ReadLine l; Write (py_str v); Write []; Flush] :: blocks).
           rewrite bind_logged. cbn [trace fst app concat]. rewrite E.
           repeat split; [|simpl; lia].
           constructor; [|exact HB]. exists l. right. eexists. reflexivity.
    + rewrite (loop_skip _ _ Hd). exists ([ReadLine l] :: blocks).
      cbn [trace fst app concat]. rewrite E.
      repeat split; [|simpl; lia].
      constructor; [|exact HB]. exists l. left. reflexivity.
Qed.

(** X6: what the loop writes and how it ends depend on the data frames
    alone: dropping every line without the marker from a stream changes
    neither the text written nor the result. *)
Theorem output_depends_on_data_frames (ls : list pystr) :
  stdout_text (trace (iter_lines_loop ls)) =
    stdout_text (trace (iter_lines_loop
      (filter (fun l => is_data_frame l = true) ls))) /\
  result (iter_lines_loop ls) =
    result (iter_lines_loop (filter (fun l => is_data_frame l = true) ls)).
Proof.
  induction ls as [|l ls [IHo IHr]]; [split; reflexivity|].
  destruct (is_data_frame l) eqn:Hd.
  - rewrite filter_cons_True by exact Hd.
    destruct (is_sentinel l) eqn:Hs.
    + rewrite !(loop_sentinel _ _ Hs). split; reflexivity.
    + rewrite !(loop_frame _ _ Hd Hs), !bind_tell.
      cbn [trace result fst snd stdout_text].
      rewrite !trace_bind, !result_bind.
      destruct (result (handle_payload _)); [split; reflexivity|].
      rewrite !stdout_text_app, IHo, IHr. split; reflexivity.
  - rewrite filter_cons_False by (rewrite Hd; discriminate).
    rewrite (loop_skip _ _ Hd). cbn [trace result fst snd stdout_text].
    split; assumption.
Qed.

(** X7: which exception a chunk of the wrong type raises.  A payload that
    decodes to something other than an object raises [TypeError], and so
    does a first choice that is not an object; an object in the place of
    the list of choices raises [KeyError] on the key [0]; a delta that is
    present but is not an object, [null] for instance, raises
    [AttributeError].  Nothing is written in any of these cases. *)
Theorem wrong_type_chunk_raises (p : pystr) (chunk : value) :
  json_loads p = Some chunk ->
  ((forall kvs, chunk <> VDict kvs) ->
   handle_payload p = ([], inl TypeError)) /\
  (forall kvs cd,
     chunk = VDict kvs -> dict_get kvs (py "choices") = Some (VDict cd) ->
     handle_payload p = ([], inl (KeyError (VInt 0)))) /\
  (forall kvs first tl,
     chunk = VDict kvs ->
     dict_get kvs (py "choices") = Some (VList (first :: tl)) ->
     (forall fd, first <> VDict fd) ->
     handle_payload p = ([], inl TypeError)) /\
  (forall kvs fd tl delta,
     chunk = VDict kvs ->
     dict_get kvs (py "choices") = Some (VList (VDict fd :: tl)) ->
     dict_get fd (py "delta") = Some delta ->
     (forall d, delta <> VDict d) ->
     handle_payload p = ([], inl AttributeError)).
Proof.
  intros Hp. unfold handle_payload, loads. rewrite Hp, bind_ret.
  split; [|split; [|split]].
  - intros Hn. destruct chunk; try reflexivity. exfalso. eapply Hn; reflexivity.
  - intros kvs cd -> Hc. rewrite (getitem_str_found _ _ _ Hc), bind_ret.
    reflexivity.
  - intros kvs first tl -> Hc Hn.
    rewrite (getitem_str_found _ _ _ Hc), bind_ret.
    change (getitem_int (VList (first :: tl)) 0) with (@ret value first).
    rewrite bind_ret.
    destruct first; try reflexivity. exfalso. eapply Hn; reflexivity.
  - intros kvs fd tl delta -> Hc Hd Hn.
    rewrite (getitem_str_found _ _ _ Hc), bind_ret.
    change (getitem_int (VList (VDict fd :: tl)) 0)
      with (@ret value (VDict fd)).
    rewrite bind_ret, (getitem_str_found _ _ _ Hd), bind_ret.
    destruct delta; try reflexivity. exfalso. eapply Hn; reflexivity.
Qed.

End WholeStream.

(** ** The two calls and the entry point, beyond the examples *)

Lemma stream_closes_app (t1 t2 : list effect) :
  stream_closes (t1 ++ t2) = (stream_closes t1 + stream_closes t2)%nat.
Proof.
  induction t1 as [|e t1 IH]; [reflexivity|].
  destruct e; simpl; rewrite ?IH; reflexivity.
Qed.

Lemma success_or_not (r : response) : success r \/ ~ success r.
Proof. unfold success. lia. Qed.

Section BothCalls.
Context {rt : PyRuntime}.
Variable net : request -> exn + response.

Lemma loop_never_closes (ls : list pystr) :
  stream_closes (trace (iter_lines_loop ls)) = 0%nat.
Proof.
  induction ls as [|line rest IH]; [reflexivity|].
  destruct (is_data_frame line) eqn:Hd.
  - destruct (is_sentinel line) eqn:Hs.
    + rewrite (loop_sentinel _ _ Hs). reflexivity.
    + rewrite (loop_frame _ _ Hd Hs), bind_tell.
      cbn [trace fst stream_closes]. rewrite trace_bind.
      destruct (handle_payload_cases (removeprefix line (py "data: ")))
        as [[e ->] | [-> | [v [_ ->]]]]; cbn [trace result fst snd];
        rewrite ?stream_closes_app, ?IH; reflexivity.
  - rewrite (loop_skip _ _ Hd). exact IH.
Qed.

(** The streaming call on a response with a non-success status. *)
Lemma chat_streaming_status_error (api_key : pystr) (r : response) :
  net (chat_streaming_request api_key) = inr r ->
  ~ success r ->
  chat_streaming net api_key =
    ([Write (NL ++ py "=== Streaming ==="); Write NL;
      OpenStream (chat_streaming_request api_key); CloseStream],
     inl (HTTPStatusError r)).
Proof.
  intros Hnet Hbad. unfold chat_streaming, with_stream. rewrite Hnet.
  change ([], inr r) with (@ret response r).
  rewrite bind_tell, bind_ret, (raise_for_status_error _ Hbad). reflexivity.
Qed.

(** The streaming call when no response arrives. *)
Lemma chat_streaming_no_response (api_key : pystr) (e : exn) :
  net (chat_streaming_request api_key) = inl e ->
  chat_streaming net api_key =
    ([Write (NL ++ py "=== Streaming ==="); Write NL;
      OpenStream (chat_streaming_request api_key)],
     inl e).
Proof.
  intros Hnet. unfold chat_streaming, with_stream. rewrite Hnet. reflexivity.
Qed.

(** X8: when no response arrives (time-out, refused connection) the
    exception [httpx] raises leaves the call as it is.  The blocking call
    has sent its request and written nothing; the streaming call has
    written its banner line and tried to open the stream, has read no line
    and has nothing to close.  Neither call tries again. *)
Theorem transport_failure_propagates (api_key : pystr) (e : exn) :
  (net (chat_request api_key) = inl e ->
   chat net api_key = ([Post (chat_request api_key)], inl e)) /\
  (net (chat_streaming_request api_key) = inl e ->
   chat_streaming net api_key =
     ([Write (NL ++ py "=== Streaming ==="); Write NL;
       OpenStream (chat_streaming_request api_key)],
      inl e) /\
   stream_closes (trace (chat_streaming net api_key)) = 0%nat /\
   lines_read (trace (chat_streaming net api_key)) = []).
Proof.
  split; intros Hnet.
  - unfold chat. rewrite Hnet. reflexivity.
  - rewrite (chat_streaming_no_response _ _ Hnet). repeat split; reflexivity.
Qed.

(** X9: once a response has arrived, the streaming call closes it exactly
    once on every way out (status error, exception in a frame, sentinel,
    end of stream), after the last line it reads and before the final
    newline. *)
Theorem stream_closed_exactly_once (api_key : pystr) (r : response) :
  net (chat_streaming_request api_key) = inr r ->
  stream_closes (trace (chat_streaming net api_key)) = 1%nat /\
  exists t1 t2,
    trace (chat_streaming net api_key) = t1 ++ CloseStream :: t2 /\
    lines_read t2 = [] /\
    (t2 = [] \/ t2 = [Write NL]).
Proof.
  intros Hnet. destruct (success_or_not r) as [Hok | Hbad].
  - rewrite (chat_streaming_unfold net _ _ Hnet Hok). cbn [trace fst].
    split.
    + rewrite !stream_closes_app, loop_never_closes.
      destruct (result (iter_lines_loop (lines r))); reflexivity.
    + eexists _, _. rewrite app_assoc. split; [reflexivity|].
      destruct (result (iter_lines_loop (lines r))); split; auto.
  - rewrite (chat_streaming_status_error _ _ Hnet Hbad). split; [reflexivity|].
    exists [Write (NL ++ py "=== Streaming ==="); Write NL;
            OpenStream (chat_streaming_request api_key)], [].
    repeat split; auto.
Qed.

(** X10: the streaming call returns normally exactly when its log ends with
    the close of the stream followed by the final newline: that newline is
    never written after an exception, and never before the stream is
    closed. *)
Theorem final_newline_iff_returns (api_key : pystr) :
  result (chat_streaming net api_key) = inr tt <->
  exists t, trace (chat_streaming net api_key) = t ++ [CloseStream; Write NL].
Proof.
  destruct (net (chat_streaming_request api_key)) as [e|r] eqn:Hnet.
  - rewrite (chat_streaming_no_response _ _ Hnet). cbn [trace result fst snd].
    split; [discriminate|]. intros [t E]. exfalso.
    change (t ++ [CloseStream; Write NL])
      with (t ++ [CloseStream] ++ [Write NL]) in E.
    rewrite app_assoc in E.
    change [Write (NL ++ py "=== Streaming ==="); Write NL;
            OpenStream (chat_streaming_request api_key)]
      with ([Write (NL ++ py "=== Streaming ==="); Write NL]
            ++ [OpenStream (chat_streaming_request api_key)]) in E.
    apply app_inj_tail in E as [_ E]. discriminate E.
  - destruct (success_or_not r) as [Hok | Hbad].
    + rewrite (chat_streaming_unfold net _ _ Hnet Hok).
      cbn [trace result fst snd].
      destruct (result (iter_lines_loop (lines r))) as [e|[]].
      * split; [discriminate|]. intros [t E]. exfalso.
        change (t ++ [CloseStream; Write NL])
          with (t ++ [CloseStream] ++ [Write NL]) in E.
        rewrite !app_assoc in E.
        apply app_inj_tail in E as [_ E]. discriminate E.
      * split; [|reflexivity]. intros _.
        eexists. rewrite app_assoc. reflexivity.
    + rewrite (chat_streaming_status_error _ _ Hnet Hbad).
      cbn [trace result fst snd].
      split; [discriminate|]. intros [t E]. exfalso.
      change (t ++ [CloseStream; Write NL])
        with (t ++ [CloseStream] ++ [Write NL]) in E.
      rewrite app_assoc in E.
      change [Write (NL ++ py "=== Streaming ==="); Write NL;
              OpenStream (chat_streaming_request api_key); CloseStream]
        with ([Write (NL ++ py "=== Streaming ==="); Write NL;
               OpenStream (chat_streaming_request api_key)]
              ++ [CloseStream]) in E.
      apply app_inj_tail in E as [_ E]. discriminate E.
Qed.

End BothCalls.

Section BlockingCall.
Context {rt : PyRuntime}.
Variable net : request -> exn + response.

(** The blocking call once a response with a success status and a JSON
    body is there. *)
Lemma chat_after_decoding (api_key : pystr) (r : response) (data : value) :
  net (chat_request api_key) = inr r ->
  success r ->
  json_loads (text r) = Some data ->
  chat net api_key =
    (tell (Post (chat_request api_key));;
     print [VStr (py "=== Regular ===")] NL false;;
     choices ← getitem_str data (py "choices");
     first ← getitem_int choices 0;
     message ← getitem_str first (py "message");
     content ← getitem_str message (py "content");
     print [content] NL false).
Proof.
  intros Hnet Hok Hdata. unfold chat. rewrite Hnet.
  change ([], inr r) with (@ret response r).
  rewrite bind_ret, (raise_for_status_ok _ Hok), bind_ret.
  unfold response_json, loads. rewrite Hdata, bind_ret. reflexivity.
Qed.

(** X11: the blocking call prints the content of the first choice's
    message whatever it is, and nothing of the other choices or of other
    fields.  For a body that decodes to an object whose first choice has a
    message object with a [content] entry, the call returns normally after
    writing the banner line, the content as [print] renders it (a string
    as it is) and a newline. *)
Theorem chat_prints_first_message
    (api_key : pystr) (r : response)
    (kvs fd md : list (pystr * value)) (tl : list value) (v : value) :
  net (chat_request api_key) = inr r ->
  (200 <= status_code r <= 299)%Z ->
  json_loads (text r) = Some (VDict kvs) ->
  dict_get kvs (py "choices") = Some (VList (VDict fd :: tl)) ->
  dict_get fd (py "message") = Some (VDict md) ->
  dict_get md (py "content") = Some v ->
  chat net api_key =
    ([Post (chat_request api_key);
      Write (py "=== Regular ==="); Write NL; Write (py_str v); Write NL],
     inr tt) /\
  (forall s, v = VStr s ->
     stdout_text (trace (chat net api_key)) =
       py "=== Regular ===" ++ NL ++ s ++ NL).
Proof.
  intros Hnet Hok Hdata Hc Hm Hv.
  assert (E : chat net api_key =
    ([Post (chat_request api_key);
      Write (py "=== Regular ==="); Write NL; Write (py_str v); Write NL],
     inr tt)).
  { rewrite (chat_after_decoding _ _ _ Hnet Hok Hdata).
    rewrite (getitem_str_found _ _ _ Hc), bind_ret.
    change (getitem_int (VList (VDict fd :: tl)) 0)
      with (@ret value (VDict fd)).
    rewrite bind_ret, (getitem_str_found _ _ _ Hm), bind_ret.
    rewrite (getitem_str_found _ _ _ Hv), bind_ret. reflexivity. }
  split; [exact E|]. intros s ->. rewrite E. reflexivity.
Qed.

(** X12: the blocking call never returns normally on anything else: if it
    returns, a response arrived, its status was a success, and its body
    decoded to an object whose first choice has a message object with a
    [content] entry. *)
Theorem chat_returns_only_on_shape (api_key : pystr) :
  result (chat net api_key) = inr tt ->
  exists r kvs fd tl md v,
    net (chat_request api_key) = inr r /\
    (200 <= status_code r <= 299)%Z /\
    json_loads (text r) = Some (VDict kvs) /\
    dict_get kvs (py "choices") = Some (VList (VDict fd :: tl)) /\
    dict_get fd (py "message") = Some (VDict md) /\
    dict_get md (py "content") = Some v.
Proof.
  destruct (net (chat_request api_key)) as [e|r] eqn:Hnet.
  { unfold chat. rewrite Hnet. discriminate. }
  destruct (success_or_not r) as [Hok | Hbad].
  2:{ unfold chat. rewrite Hnet. change ([], inr r) with (@ret response r).
      rewrite bind_tell, bind_ret, (raise_for_status_error _ Hbad).
      discriminate. }
  destruct (json_loads (text r)) as [data|] eqn:Hdata.
  2:{ unfold chat. rewrite Hnet. change ([], inr r) with (@ret response r).
      rewrite bind_tell, bind_ret, (raise_for_status_ok _ Hok), bind_ret.
      unfold response_json, loads. rewrite Hdata. discriminate. }
  rewrite (chat_after_decoding _ _ _ Hnet Hok Hdata), bind_tell.
  cbn [result snd]. rewrite print_line, bind_logged. cbn [result snd].
  destruct data as [| | | | |l|kvs]; try discriminate.
  destruct (dict_get kvs (py "choices")) as [choices|] eqn:Hc;
    [rewrite (getitem_str_found _ _ _ Hc), bind_ret
    |rewrite (getitem_str_missing _ _ Hc); discriminate].
  destruct choices as [| | | |s|l|cd]; try discriminate.
  - unfold getitem_int. destruct (seq_index s 0); discriminate.
  - destruct l as [|first tl]; [discriminate|].
    change (getitem_int (VList (first :: tl)) 0) with (@ret value first).
    rewrite bind_ret.
    destruct first as [| | | | |l'|fd]; try discriminate.
    destruct (dict_get fd (py "message")) as [message|] eqn:Hm;
      [rewrite (getitem_str_found _ _ _ Hm), bind_ret
      |rewrite (getitem_str_missing _ _ Hm); discriminate].
    destruct message as [| | | | |l'|md]; try discriminate.
    destruct (dict_get md (py "content")) as [v|] eqn:Hv;
      [|rewrite (getitem_str_missing _ _ Hv); discriminate].
    intros _. exists r, kvs, fd, tl, md, v.
    split; [reflexivity|]. split; [exact Hok|]. repeat split; assumption.
Qed.


(** X14: the entry point makes the two calls one after the other with the
    credential it read, whatever it is as long as it is not empty.  When
    the blocking call raises, the entry point ends with that exception and
    the streaming call is not made: one request went out.  When it
    returns, the streaming call follows, and the outcome of the entry
    point is the outcome of the streaming call: two requests went out,
    the blocking one first. *)
Theorem main_calls_in_order (environ : gmap pystr pystr) (k : pystr) :
  environ !! py "OPENAI_API_KEY" = Some k ->
  k <> [] ->
  (forall e, result (chat net k) = inl e ->
     main net environ = (trace (chat net k), inl e) /\
     requests_sent (trace (main net environ)) = [chat_request k]) /\
  (result (chat net k) = inr tt ->
     main net environ =
       (trace (chat net k) ++ trace (chat_streaming net k),
        result (chat_streaming net k)) /\
     requests_sent (trace (main net environ)) =
       [chat_request k; chat_streaming_request k]).
Proof.
  intros Hk Hne. unfold main. rewrite Hk.
  destruct k as [|c k]; [contradiction|]. cbn [truthy negb].
  split.
  - intros e He. rewrite (bind_raises _ _ e He). cbn [trace fst].
    split; [reflexivity | apply chat_requests].
  - intros Hr. rewrite (bind_returns _ _ tt Hr). cbn [trace fst].
    split; [reflexivity|].
    rewrite requests_sent_app, chat_requests, chat_streaming_requests.
    reflexivity.
Qed.

(** X15: the process ends with status 0 exactly when the credential is
    set and not empty and both calls return; in every other case the
    status is 1. *)
Theorem exit_status_zero_iff (environ : gmap pystr pystr) :
  (exit_code (result (main net environ)) = 0%Z <->
   exists k, environ !! py "OPENAI_API_KEY" = Some k /\ k <> [] /\
             result (chat net k) = inr tt /\
             result (chat_streaming net k) = inr tt) /\
  (exit_code (result (main net environ)) = 0%Z \/
   exit_code (result (main net environ)) = 1%Z).
Proof.
  unfold main.
  destruct (environ !! py "OPENAI_API_KEY") as [k|] eqn:Hk.
  2:{ split; [|right; reflexivity].
      split; [discriminate | intros (k & [=] & _)]. }
  destruct k as [|c k].
  { split; [|right; reflexivity].
    split; [discriminate | intros (k & [= <-] & Hne & _); contradiction]. }
  cbn [truthy negb]. rewrite result_bind.
  destruct (result (chat net (c :: k))) as [e|[]] eqn:Hc.
  { split; [|right; reflexivity].
    split; [discriminate|]. intros (k' & [= <-] & _ & Hr & _). congruence. }
  destruct (result (chat_streaming net (c :: k))) as [e|[]] eqn:Hs.
  { split; [|right; reflexivity].
    split; [discriminate|]. intros (k' & [= <-] & _ & _ & Hr). congruence. }
  split; [|left; reflexivity].
  split; [|reflexivity]. intros _. exists (c :: k).
  repeat split; [discriminate | assumption | assumption].
Qed.

End BlockingCall.

(** ** The header, beyond the round trip *)

Lemma hex_digit_printable (d : N) : d < 16 -> printable_ascii (hex_digit d).
Proof.
  unfold printable_ascii, hex_digit. intros H.
  destruct (d <? 10) eqn:E; [apply N.ltb_lt in E | apply N.ltb_ge in E]; lia.
Qed.

Lemma escape_u_printable (n : N) : Forall printable_ascii (escape_u n).
Proof.
  unfold escape_u.
  repeat (apply Forall_cons; split);
    try (apply hex_digit_printable, N.mod_lt; discriminate);
    try (unfold printable_ascii; simpl; lia).
  apply Forall_nil. exact I.
Qed.

Lemma escape_char_printable (c : N) : Forall printable_ascii (escape_char c).
Proof.
  unfold escape_char.
  repeat (match goal with
          | |- context [if ?x =? ?k then _ else _] =>
              destruct (x =? k);
              [repeat constructor; unfold printable_ascii; simpl; lia|]
          end).
  destruct ((32 <=? c) && (c <=? 126)) eqn:Hp.
  { apply andb_true_iff in Hp as [H1 H2].
    apply N.leb_le in H1, H2. repeat constructor; assumption. }
  destruct (c <? 65536); [apply escape_u_printable|].
  cbv zeta. apply Forall_app. split; apply escape_u_printable.
Qed.

Section HeaderMore.
Context {rt : PyRuntime}.

(** The value of the custom header. *)
Lemma header_lookup (c : pystr) :
  provider_data_header c !! py "X-LlamaStack-Provider-Data" =
  Some (pyq "{'passthrough_api_key': '"
        ++ concat (map escape_char c)
        ++ 34 :: pyq ", 'passthrough_url': 'https://api.openai.com'}").
Proof.
  unfold provider_data_header. rewrite lookup_singleton_eq, header_text.
  reflexivity.
Qed.

(** X16: whatever the credential holds (quotes, line breaks, control
    characters, characters outside ASCII), the header value is made of
    printable ASCII characters only: a credential cannot break the header
    line or smuggle a second one in. *)
Theorem header_value_is_printable_ascii (c : pystr) :
  exists v,
    provider_data_header c !! py "X-LlamaStack-Provider-Data" = Some v /\
    Forall printable_ascii v /\
    Forall (fun x => x <> 10 /\ x <> 13) v.
Proof.
  eexists. split; [apply header_lookup|].
  assert (H : Forall printable_ascii
            (pyq "{'passthrough_api_key': '"
             ++ concat (map escape_char c)
             ++ 34 :: pyq ", 'passthrough_url': 'https://api.openai.com'}")).
  { apply Forall_app. split.
    { repeat constructor; unfold printable_ascii; simpl; lia. }
    apply Forall_app. split.
    - apply Forall_concat, Forall_map, Forall_forall. intros x _.
      apply escape_char_printable.
    - repeat constructor; unfold printable_ascii; simpl; lia. }
  split; [exact H|].
  eapply Forall_impl; [exact H|]. unfold printable_ascii. intros x Hx. lia.
Qed.

(** X17: two different credentials never give the same header, as long as
    neither holds a high surrogate directly before a low one: the gateway
    cannot mistake one caller's credential for another's. *)
Theorem distinct_credentials_distinct_headers (c1 c2 : pystr) :
  pair_free c1 = true ->
  pair_free c2 = true ->
  c1 <> c2 ->
  provider_data_header c1 <> provider_data_header c2.
Proof.
  intros H1 H2 Hne E. apply Hne.
  pose proof (header_lookup c1) as L1. rewrite E, header_lookup in L1.
  injection L1 as L1.
  pose proof (loads_header c1 H1) as D1.
  pose proof (loads_header c2 H2) as D2.
  rewrite <- L1, D2 in D1. injection D1 as D1. congruence.
Qed.

End HeaderMore.

(** Without that condition two credentials can share a header: the lone
    surrogates of a pair and the character the pair spells are written the
    same way. *)
Example surrogate_pair_collides :
  provider_data_header (rt := sample_runtime) [0xD83D; 0xDE00]
  = provider_data_header (rt := sample_runtime) [0x1F600].
Proof. reflexivity. Qed.

Section Delivery.
Context {rt : PyRuntime}.
Variable net : request -> exn + response.

Lemma request_headers_entries (k : pystr) :
  request_headers k !! py "X-LlamaStack-Provider-Data" =
    provider_data_header k !! py "X-LlamaStack-Provider-Data" /\
  request_headers k !! py "Content-Type" = Some (py "application/json") /\
  size (request_headers k) = 2%nat.
Proof.
  assert (Hne : py "X-LlamaStack-Provider-Data" <> py "Content-Type")
    by (vm_compute; discriminate).
  unfold request_headers, provider_data_header.
  rewrite <- insert_union_singleton_l.
  split; [|split].
  - rewrite lookup_insert_eq, lookup_singleton_eq. reflexivity.
  - rewrite lookup_insert_ne by exact Hne. apply lookup_singleton_eq.
  - rewrite map_size_insert_None
      by (apply lookup_singleton_ne; congruence).
    rewrite map_size_singleton. reflexivity.
Qed.

(** X18: the credential read from the environment reaches the gateway in
    every request the entry point sends.  Each request is a POST to the
    chat-completions path of the local gateway with a time-out of 30; its
    headers are the content type and the custom header, two entries in
    all; and the custom header decodes to the object holding the very
    credential of the environment (for a credential that has an encoding)
    and the fixed target URL. *)
Theorem credential_reaches_gateway
    (environ : gmap pystr pystr) (req : request) :
  In req (requests_sent (trace (main net environ))) ->
  exists k v,
    environ !! py "OPENAI_API_KEY" = Some k /\
    req_method req = py "POST" /\
    req_url req = py "http://localhost:8321/v1/chat/completions" /\
    req_timeout req = 30%Z /\
    size (req_headers req) = 2%nat /\
    req_headers req !! py "Content-Type" = Some (py "application/json") /\
    req_headers req !! py "X-LlamaStack-Provider-Data" = Some v /\
    (pair_free k = true ->
     json_loads v = Some (VDict [
       (py "passthrough_api_key", VStr k);
       (py "passthrough_url", VStr (py "https://api.openai.com")) ])).
Proof.
  unfold main.
  destruct (environ !! py "OPENAI_API_KEY") as [k|]; [|intros []].
  destruct k as [|c k]; [intros []|]. cbn [truthy negb].
  intros Hin.
  assert (Hreq : req = chat_request (c :: k)
                 \/ req = chat_streaming_request (c :: k)).
  { rewrite trace_bind in Hin.
    destruct (result (chat net (c :: k)));
      rewrite ?requests_sent_app, ?chat_requests, ?chat_streaming_requests
        in Hin; cbn [In app] in Hin; intuition. }
  destruct (request_headers_entries (c :: k)) as (Hh & Hct & Hsz).
  rewrite header_lookup in Hh.
  eexists (c :: k), _.
  destruct Hreq as [-> | ->]; cbn [req_method req_url req_timeout req_headers];
    (split; [reflexivity|]; split; [reflexivity|]; split; [reflexivity|];
     split; [reflexivity|]; split; [exact Hsz|]; split; [exact Hct|];
     split; [exact Hh|]; apply loads_header).
Qed.

End Delivery.

Section OneRequest.
Context {rt : PyRuntime}.
Variable net : request -> exn + response.

(** X19: each call sends exactly one request, whatever happens next: no
    call is repeated after a failure.  The blocking call sends its request
    before anything else; the streaming call writes its banner line first
    and sends its request right after. *)
Theorem each_call_sends_one_request (api_key : pystr) :
  requests_sent (trace (chat net api_key)) = [chat_request api_key] /\
  requests_sent (trace (chat_streaming net api_key))
    = [chat_streaming_request api_key] /\
  (exists t, trace (chat net api_key) = Post (chat_request api_key) :: t) /\
  (exists t, trace (chat_streaming net api_key) =
     Write (NL ++ py "=== Streaming ===") :: Write NL
       :: OpenStream (chat_streaming_request api_key) :: t).
Proof.
  split; [apply chat_requests|]. split; [apply chat_streaming_requests|].
  split.
  - unfold chat. rewrite bind_tell. eexists. reflexivity.
  - unfold chat_streaming, with_stream.
    rewrite print_line, bind_logged. cbn [trace fst].
    rewrite trace_bind, bind_tell. cbn [trace result fst snd].
    destruct (result _); eexists; reflexivity.
Qed.

End OneRequest.

(** * The properties on concrete runs *)

#[local] Existing Instance sample_runtime.

Example frames_carry_fragments :
  Forall2 carries_fragment [frame_A; frame_B] [py "A"; py "B"].
Proof.
  repeat constructor; try (vm_compute; discriminate);
    eexists _, _, _, _; repeat split; reflexivity.
Qed.

Lemma streaming_assembles_fragments_witness :
  gateway_ok (chat_streaming_request sample_key) = inr response_ok /\
  (200 <= status_code response_ok <= 299)%Z /\
  (lines response_ok = stream_AB_done \/ lines response_ok = stream_AB_eof) /\
  stdout_text (trace (iter_lines_loop (lines response_ok);; print [] NL false))
    = py "AB" ++ NL /\
  result (chat_streaming gateway_ok sample_key) = inr tt.
Proof.
  assert (Hok : (200 <= status_code response_ok <= 299)%Z) by (simpl; lia).
  split; [reflexivity|]. split; [exact Hok|]. split; [left; reflexivity|].
  destruct (streaming_assembles_fragments gateway_ok sample_key response_ok
              eq_refl Hok (or_introl eq_refl))
    as (_ & H1 & _ & _ & _ & _ & _ & _ & H2 & _).
  split; [exact H1 | exact H2].
Defined.

Lemma non_success_status_raises_witness :
  ~ (200 <= status_code response_401 <= 299)%Z /\
  chat gateway_401 sample_key =
    ([Post (chat_request sample_key)], inl (HTTPStatusError response_401)) /\
  lines_read (trace (chat_streaming gateway_401 sample_key)) = [] /\
  stdout_text (trace (chat_streaming gateway_401 sample_key)) =
    NL ++ py "=== Streaming ===" ++ NL.
Proof.
  assert (Hbad : ~ (200 <= status_code response_401 <= 299)%Z) by (simpl; lia).
  split; [exact Hbad|].
  destruct (non_success_status_raises gateway_401 sample_key response_401 Hbad)
    as [H1 H2].
  destruct (H1 eq_refl) as [E1 _]. destruct (H2 eq_refl) as (_ & E2 & E3).
  split; [exact E1|]. split; [exact E2 | exact E3].
Defined.

(** What C2 says of the streaming call fails on a 401: the call raises as
    claimed, but standard output has received the banner line by then. *)
Lemma streaming_401_output_not_empty :
  status_code response_401 = 401%Z /\
  result (chat_streaming gateway_401 sample_key)
    = inl (HTTPStatusError response_401) /\
  stdout_text (trace (chat_streaming gateway_401 sample_key))
    = NL ++ py "=== Streaming ===" ++ NL /\
  stdout_text (trace (chat_streaming gateway_401 sample_key)) <> [].
Proof. repeat split; try reflexivity. vm_compute. discriminate. Qed.

Lemma sentinel_stops_processing_witness :
  startswith frame_done (py "data: ") = true /\
  strip (removeprefix frame_done (py "data: ")) = py "[DONE]" /\
  iter_lines_loop (frame_done :: [frame_junk]) = ([ReadLine frame_done], inr tt) /\
  iter_lines_loop ([frame_A] ++ frame_done :: [frame_junk])
    = iter_lines_loop ([frame_A] ++ [frame_done]).
Proof.
  split; [reflexivity|]. split; [reflexivity|].
  destruct (sentinel_stops_processing [frame_A] [frame_junk] frame_done
              eq_refl eq_refl) as (H1 & H2 & _).
  split; [exact H1 | exact H2].
Defined.

Lemma header_carries_credential_witness :
  pair_free awkward_key = true /\
  exists v : pystr,
    provider_data_header awkward_key = {[ py "X-LlamaStack-Provider-Data" := v ]} /\
    size (provider_data_header awkward_key) = 1%nat /\
    json_loads v = Some (VDict [
      (py "passthrough_api_key", VStr awkward_key);
      (py "passthrough_url", VStr (py "https://api.openai.com")) ]).
Proof.
  split; [reflexivity|]. exact (header_carries_credential awkward_key eq_refl).
Defined.

(** What C4 says of every credential fails on a high surrogate followed by
    a low one: the header is built and is JSON with the two entries, but
    its credential entry is the one code point the pair spells, not the
    two code points supplied. *)
Lemma header_joins_surrogate_pair :
  exists v : pystr,
    provider_data_header [0xD83D; 0xDE00]
      = {[ py "X-LlamaStack-Provider-Data" := v ]} /\
    json_loads v = Some (VDict [
      (py "passthrough_api_key", VStr [0x1F600]);
      (py "passthrough_url", VStr (py "https://api.openai.com")) ]) /\
    json_loads v <> Some (VDict [
      (py "passthrough_api_key", VStr [0xD83D; 0xDE00]);
      (py "passthrough_url", VStr (py "https://api.openai.com")) ]).
Proof.
  eexists. split; [reflexivity|]. split; [reflexivity|].
  vm_compute. discriminate.
Qed.

Lemma chat_prints_banner_and_message_witness :
  gateway_ok (chat_request sample_key) = inr response_ok /\
  (200 <= status_code response_ok <= 299)%Z /\
  text response_ok = pyq "{'choices':[{'message':{'content':'hi'}}]}" /\
  result (chat gateway_ok sample_key) = inr tt /\
  stdout_text (trace (chat gateway_ok sample_key)) =
    py "=== Regular ===" ++ NL ++ py "hi" ++ NL.
Proof.
  assert (Hok : (200 <= status_code response_ok <= 299)%Z) by (simpl; lia).
  split; [reflexivity|]. split; [exact Hok|]. split; [reflexivity|].
  destruct (chat_prints_banner_and_message gateway_ok sample_key response_ok
              eq_refl Hok eq_refl) as (H1 & _ & H2).
  split; [exact H1 | exact H2].
Defined.

(** What C5 says fails on its own example: the call returns normally, but
    the text written is the banner line, the message and a newline, not the
    message alone. *)
Lemma chat_output_is_not_hi_alone :
  result (chat gateway_ok sample_key) = inr tt /\
  stdout_text (trace (chat gateway_ok sample_key)) =
    py "=== Regular ===" ++ NL ++ py "hi" ++ NL /\
  stdout_text (trace (chat gateway_ok sample_key)) <> py "hi".
Proof. repeat split; try reflexivity. vm_compute. discriminate. Qed.

Lemma fragment_emitted_iff_content_witness :
  (startswith frame_A (py "data: ") = true /\
   strip (removeprefix frame_A (py "data: ")) <> py "[DONE]" /\
   iter_lines_loop (frame_A :: [frame_done]) =
     (ReadLine frame_A :: Write (py "A") :: Write [] :: Flush
        :: trace (iter_lines_loop [frame_done]),
      result (iter_lines_loop [frame_done]))) /\
  (startswith frame_role (py "data: ") = true /\
   strip (removeprefix frame_role (py "data: ")) <> py "[DONE]" /\
   handle_payload (removeprefix frame_role (py "data: ")) = ([], inr tt)).
Proof.
  assert (HA : strip (removeprefix frame_A (py "data: ")) <> py "[DONE]")
    by (vm_compute; discriminate).
  assert (HR : strip (removeprefix frame_role (py "data: ")) <> py "[DONE]")
    by (vm_compute; discriminate).
  split.
  - split; [reflexivity|]. split; [exact HA|].
    destruct (fragment_emitted_iff_content frame_A [frame_done]
                [(py "choices",
                  VList [VDict [(py "delta",
                                 VDict [(py "content", VStr (py "A"))])]])]
                [(py "delta", VDict [(py "content", VStr (py "A"))])]
                [(py "content", VStr (py "A"))] []
                eq_refl HA eq_refl eq_refl eq_refl) as (_ & H & _).
    exact (H (VStr (py "A")) eq_refl eq_refl).
  - split; [reflexivity|]. split; [exact HR|].
    destruct (fragment_emitted_iff_content frame_role [frame_done]
                [(py "choices",
                  VList [VDict [(py "delta",
                                 VDict [(py "role", VStr (py "assistant"))])]])]
                [(py "delta", VDict [(py "role", VStr (py "assistant"))])]
                [(py "role", VStr (py "assistant"))] []
                eq_refl HR eq_refl eq_refl eq_refl) as (_ & _ & H & _).
    destruct (H (or_introl eq_refl)) as [E _]. exact E.
Defined.

Lemma non_data_line_skipped_witness :
  startswith comment_line (py "data: ") = false /\
  stdout_text (trace (iter_lines_loop ([frame_A] ++ comment_line :: [frame_B])))
    = stdout_text (trace (iter_lines_loop ([frame_A] ++ [frame_B]))) /\
  result (iter_lines_loop ([frame_A] ++ comment_line :: [frame_B]))
    = result (iter_lines_loop ([frame_A] ++ [frame_B])).
Proof.
  split; [reflexivity|].
  destruct (non_data_line_skipped [frame_A] [frame_B] comment_line eq_refl)
    as (_ & _ & H1 & H2).
  split; [exact H1 | exact H2].
Defined.

Lemma missing_credential_is_fatal_witness :
  ({[ py "HOME" := py "/root" ]} : gmap pystr pystr) !! py "OPENAI_API_KEY"
    = None /\
  main gateway_ok {[ py "HOME" := py "/root" ]} =
    ([], inl (SystemExit (py "Set OPENAI_API_KEY environment variable"))) /\
  exit_code (result (main gateway_ok {[ py "HOME" := py "/root" ]})) <> 0%Z.
Proof.
  assert (H : ({[ py "HOME" := py "/root" ]} : gmap pystr pystr)
                !! py "OPENAI_API_KEY" = None) by reflexivity.
  split; [exact H|].
  destruct (missing_credential_is_fatal gateway_ok _ H) as (H1 & _ & _ & H2 & _).
  split; [exact H1 | exact H2].
Defined.


Lemma empty_credential_is_fatal_witness :
  ({[ py "OPENAI_API_KEY" := [] ]} : gmap pystr pystr) !! py "OPENAI_API_KEY"
    = Some [] /\
  main gateway_ok {[ py "OPENAI_API_KEY" := [] ]} =
    ([], inl (SystemExit (py "Set OPENAI_API_KEY environment variable"))).
Proof.
  assert (H : ({[ py "OPENAI_API_KEY" := [] ]} : gmap pystr pystr)
                !! py "OPENAI_API_KEY" = Some []) by reflexivity.
  split; [exact H|].
  destruct (empty_credential_is_fatal gateway_ok _ H) as (_ & H1 & _).
  exact H1.
Defined.


(** ** The further properties on concrete runs *)

Lemma payload_restores_line_witness :
  startswith frame_A (py "data: ") = true /\
  py "data: " ++ removeprefix frame_A (py "data: ") = frame_A.
Proof.
  split; [reflexivity|].
  destruct (payload_restores_line frame_A eq_refl) as [H _]. exact H.
Defined.

Lemma padded_sentinel_stops_witness :
  Forall (fun c => isspace c = true) [32; 9] /\
  Forall (fun c => isspace c = true) [32; 13] /\
  iter_lines_loop (frame_done_padded :: [frame_A])
    = ([ReadLine frame_done_padded], inr tt).
Proof.
  assert (H1 : Forall (fun c => isspace c = true) [32; 9])
    by (repeat constructor).
  assert (H2 : Forall (fun c => isspace c = true) [32; 13])
    by (repeat constructor).
  split; [exact H1|]. split; [exact H2|].
  exact (padded_sentinel_stops [32; 9] [32; 13] [frame_A] H1 H2).
Defined.

Lemma loop_over_concatenation_witness :
  Forall (fun l => is_sentinel l = false) [frame_A; comment_line] /\
  result (iter_lines_loop [frame_A; comment_line]) = inr tt /\
  stdout_text (trace (iter_lines_loop
    ([frame_A; comment_line] ++ [frame_B; frame_done]))) =
    stdout_text (trace (iter_lines_loop [frame_A; comment_line]))
    ++ stdout_text (trace (iter_lines_loop [frame_B; frame_done])).
Proof.
  assert (H : Forall (fun l => is_sentinel l = false) [frame_A; comment_line])
    by (repeat constructor).
  split; [exact H|]. split; [reflexivity|].
  destruct (loop_over_concatenation [frame_A; comment_line]
              [frame_B; frame_done] H eq_refl) as [_ E].
  exact E.
Defined.

Lemma loop_reads_whole_stream_witness :
  Forall (fun l => is_sentinel l = false) [frame_A; comment_line; frame_B] /\
  result (iter_lines_loop [frame_A; comment_line; frame_B]) = inr tt /\
  lines_read (trace (iter_lines_loop [frame_A; comment_line; frame_B]))
    = [frame_A; comment_line; frame_B].
Proof.
  assert (H : Forall (fun l => is_sentinel l = false)
                [frame_A; comment_line; frame_B]) by (repeat constructor).
  split; [exact H|]. split; [reflexivity|].
  exact (loop_reads_whole_stream [frame_A; comment_line; frame_B] H eq_refl).
Defined.

Lemma wrong_type_chunk_raises_witness :
  json_loads (removeprefix frame_null_delta (py "data: "))
    = Some (VDict [(py "choices", VList [VDict [(py "delta", VNone)]])]) /\
  handle_payload (removeprefix frame_null_delta (py "data: "))
    = ([], inl AttributeError).
Proof.
  split; [reflexivity|].
  destruct (wrong_type_chunk_raises
              (removeprefix frame_null_delta (py "data: "))
              (VDict [(py "choices", VList [VDict [(py "delta", VNone)]])])
              eq_refl) as (_ & _ & _ & H).
  apply (H [(py "choices", VList [VDict [(py "delta", VNone)]])]
           [(py "delta", VNone)] [] VNone eq_refl eq_refl eq_refl).
  intros d. discriminate.
Defined.

Lemma transport_failure_propagates_witness :
  gateway_down (chat_request sample_key) = inl ConnectError /\
  chat gateway_down sample_key
    = ([Post (chat_request sample_key)], inl ConnectError) /\
  stream_closes (trace (chat_streaming gateway_down sample_key)) = 0%nat.
Proof.
  split; [reflexivity|].
  destruct (transport_failure_propagates gateway_down sample_key ConnectError)
    as [H1 H2].
  split; [exact (H1 eq_refl)|].
  destruct (H2 eq_refl) as (_ & H & _). exact H.
Defined.

Lemma stream_closed_exactly_once_witness :
  gateway_401 (chat_streaming_request sample_key) = inr response_401 /\
  stream_closes (trace (chat_streaming gateway_401 sample_key)) = 1%nat /\
  gateway_ok (chat_streaming_request sample_key) = inr response_ok /\
  stream_closes (trace (chat_streaming gateway_ok sample_key)) = 1%nat.
Proof.
  split; [reflexivity|].
  destruct (stream_closed_exactly_once gateway_401 sample_key response_401
              eq_refl) as [H1 _].
  split; [exact H1|]. split; [reflexivity|].
  destruct (stream_closed_exactly_once gateway_ok sample_key response_ok
              eq_refl) as [H2 _].
  exact H2.
Defined.

Lemma final_newline_iff_returns_witness :
  result (chat_streaming gateway_ok sample_key) = inr tt /\
  exists t, trace (chat_streaming gateway_ok sample_key)
            = t ++ [CloseStream; Write NL].
Proof.
  split; [reflexivity|].
  destruct (final_newline_iff_returns gateway_ok sample_key) as [H _].
  exact (H eq_refl).
Defined.

Lemma chat_prints_first_message_witness :
  gateway_ok (chat_request sample_key) = inr response_ok /\
  (200 <= status_code response_ok <= 299)%Z /\
  chat gateway_ok sample_key =
    ([Post (chat_request sample_key);
      Write (py "=== Regular ==="); Write NL;
      Write (py_str (VStr (py "hi"))); Write NL],
     inr tt).
Proof.
  assert (Hok : (200 <= status_code response_ok <= 299)%Z) by (simpl; lia).
  split; [reflexivity|]. split; [exact Hok|].
  destruct (chat_prints_first_message gateway_ok sample_key response_ok
              [(py "choices",
                VList [VDict [(py "message",
                               VDict [(py "content", VStr (py "hi"))])]])]
              [(py "message", VDict [(py "content", VStr (py "hi"))])]
              [(py "content", VStr (py "hi"))] [] (VStr (py "hi"))
              eq_refl Hok eq_refl eq_refl eq_refl eq_refl) as [H _].
  exact H.
Defined.

Lemma chat_returns_only_on_shape_witness :
  result (chat gateway_ok sample_key) = inr tt /\
  exists r kvs fd tl md v,
    gateway_ok (chat_request sample_key) = inr r /\
    (200 <= status_code r <= 299)%Z /\
    json_loads (text r) = Some (VDict kvs) /\
    dict_get kvs (py "choices") = Some (VList (VDict fd :: tl)) /\
    dict_get fd (py "message") = Some (VDict md) /\
    dict_get md (py "content") = Some v.
Proof.
  split; [reflexivity|].
  exact (chat_returns_only_on_shape gateway_ok sample_key eq_refl).
Defined.


Lemma main_calls_in_order_witness :
  ({[ py "OPENAI_API_KEY" := sample_key ]} : gmap pystr pystr)
    !! py "OPENAI_API_KEY" = Some sample_key /\
  sample_key <> [] /\
  requests_sent (trace (main gateway_401
                   {[ py "OPENAI_API_KEY" := sample_key ]}))
    = [chat_request sample_key] /\
  requests_sent (trace (main gateway_ok
                   {[ py "OPENAI_API_KEY" := sample_key ]}))
    = [chat_request sample_key; chat_streaming_request sample_key].
Proof.
  assert (Hk : ({[ py "OPENAI_API_KEY" := sample_key ]} : gmap pystr pystr)
                 !! py "OPENAI_API_KEY" = Some sample_key) by reflexivity.
  assert (Hne : sample_key <> []) by discriminate.
  split; [exact Hk|]. split; [exact Hne|].
  destruct (main_calls_in_order gateway_401 _ _ Hk Hne) as [H1 _].
  destruct (main_calls_in_order gateway_ok _ _ Hk Hne) as [_ H2].
  destruct (H1 (HTTPStatusError response_401) eq_refl) as [_ E1].
  destruct (H2 eq_refl) as [_ E2].
  split; [exact E1 | exact E2].
Defined.

Lemma exit_status_zero_iff_witness :
  exit_code (result (main gateway_ok {[ py "OPENAI_API_KEY" := sample_key ]}))
    = 0%Z.
Proof.
  destruct (exit_status_zero_iff gateway_ok
              {[ py "OPENAI_API_KEY" := sample_key ]}) as [[_ H] _].
  apply H. exists sample_key.
  split; [reflexivity|]. split; [discriminate|]. split; reflexivity.
Defined.

Lemma distinct_credentials_distinct_headers_witness :
  pair_free sample_key = true /\ pair_free awkward_key = true /\
  sample_key <> awkward_key /\
  provider_data_header sample_key <> provider_data_header awkward_key.
Proof.
  assert (Hne : sample_key <> awkward_key) by discriminate.
  split; [reflexivity|]. split; [reflexivity|]. split; [exact Hne|].
  exact (distinct_credentials_distinct_headers sample_key awkward_key
           eq_refl eq_refl Hne).
Defined.

Lemma credential_reaches_gateway_witness :
  In (chat_streaming_request sample_key)
     (requests_sent (trace (main gateway_ok
                              {[ py "OPENAI_API_KEY" := sample_key ]}))) /\
  exists k v,
    ({[ py "OPENAI_API_KEY" := sample_key ]} : gmap pystr pystr)
      !! py "OPENAI_API_KEY" = Some k /\
    req_headers (chat_streaming_request sample_key)
      !! py "X-LlamaStack-Provider-Data" = Some v /\
    (pair_free k = true ->
     json_loads v = Some (VDict [
       (py "passthrough_api_key", VStr k);
       (py "passthrough_url", VStr (py "https://api.openai.com")) ])).
Proof.
  assert (Hin : In (chat_streaming_request sample_key)
     (requests_sent (trace (main gateway_ok
                              {[ py "OPENAI_API_KEY" := sample_key ]}))))
    by (right; left; reflexivity).
  split; [exact Hin|].
  destruct (credential_reaches_gateway gateway_ok _ _ Hin)
    as (k & v & Hk & _ & _ & _ & _ & _ & Hv & Hd).
  exists k, v. split; [exact Hk|]. split; [exact Hv | exact Hd].
Defined.
